(** * Provider lifecycle of the video denoising filter

    A shallow embedding of [source/filters/filter-denoising.cpp]: the filter
    instance ([denoising_instance]), its asynchronous provider switch, the
    per-frame render path with its dirty flag, and the process-wide factory
    ([denoising_factory]).

    Conventions.
    - A [std::shared_ptr<T>] is an [option T]; [None] is the null pointer.
    - Calls into collaborators that live outside this translation unit (the
      host's graphics API, the worker pool, the NVIDIA backend) are recorded
      as [effect]s; what such a call returns is supplied by an oracle record
      ([frame_io], [switch_io], [init_io]).
    - C++ exceptions are values of [thrown]; a function that may let one
      escape returns a [completion] next to its final state.
    - The preprocessor symbol [ENABLE_FILTER_DENOISING_NVIDIA] is a boolean
      variable of the development, so both builds are covered. *)

From Stdlib Require Import List Bool Arith NArith ZArith String Lia.
Import ListNotations.

(** ** Basic vocabulary *)

(** Modelled from the spec: the enumeration is declared in
    filter-denoising.hpp, which is not among the sources; its three members
    are the ones this file switches on ([cstring]) and the ones §3 of the
    specification lists. *)
Inductive denoising_provider : Set :=
| INVALID
| AUTOMATIC
| NVIDIA_DENOISING.

Definition provider_eqb (a b : denoising_provider) : bool :=
  match a, b with
  | INVALID, INVALID => true
  | AUTOMATIC, AUTOMATIC => true
  | NVIDIA_DENOISING, NVIDIA_DENOISING => true
  | _, _ => false
  end.

(** What a C++ [throw] carries: an object derived from [std::exception]
    (with its [what()] text), or anything else.  The source tells the two
    apart: [catch (const std::exception&)] against [catch (...)]. *)
Inductive thrown : Set :=
| std_exception (what : string)
| non_std_exception.

(** Result of a call into a collaborator that may throw. *)
Inductive outcome (A : Type) : Type :=
| Returns (a : A)
| Throws (e : thrown).
Arguments Returns {A} a.
Arguments Throws {A} e.

(** How a member function of this file ends: it returns, an exception
    leaves it, it dereferences a null pointer, or an exception meets a
    [noexcept] boundary and [std::terminate] ends the process. *)
Inductive completion : Set :=
| Normal
| Escaped (e : thrown)
| NullDereference
| Terminated.

Definition shared_ptr (A : Type) : Type := option A.

(** GPU textures are opaque handles. *)
Definition texture := nat.

(** [streamfx::obs::gs::rendertarget]: only [get_texture] is observed. *)
Record rendertarget := { get_texture : shared_ptr texture }.

(** [streamfx::nvidia::vfx::denoising]: the loaded backend object. *)
Record vfx_denoising := { strength : Z }.

(** A host source: [obs_source_get_base_width] and
    [obs_source_get_base_height] read these; libobs answers 0 for a null
    source. *)
Record obs_source_t := { base_width : N; base_height : N }.

Definition obs_source_get_base_width (s : option obs_source_t) : N :=
  match s with Some x => base_width x | None => 0%N end.

Definition obs_source_get_base_height (s : option obs_source_t) : N :=
  match s with Some x => base_height x | None => 0%N end.

(** What [static_cast<denoising_provider>] of a stored integer can be: one
    of the enumerators, or an integer that is the code of none.  The
    settings and [_provider_ui] hold such values; [_provider] only ever
    holds an enumerator, because [switch_provider] throws on anything else
    before it stores it. *)
Inductive provider_value : Set :=
| enumerator (p : denoising_provider)
| no_enumerator (code : Z).

Coercion enumerator : denoising_provider >-> provider_value.

(** The settings object, read through
    [static_cast<denoising_provider>(obs_data_get_int(data, ST_KEY_PROVIDER))]
    and [obs_data_get_int(data, ST_KEY_NVIDIA_DENOISING_STRENGTH)]. *)
Record obs_data_t := {
  data_provider : provider_value;
  data_nvidia_denoising_strength : Z
}.

(** ** Log lines and other observable effects *)

Inductive log_level : Set := LOG_ERROR | LOG_WARNING | LOG_INFO | LOG_DEBUG.

Inductive log_line : Set :=
| msg_is_switching (from to : denoising_provider)
| msg_switched (from to : denoising_provider)
| msg_failed_switching (what : string)
| msg_no_result (p : denoising_provider)
| msg_nvidia_unavailable (what : option string)
| msg_all_providers_failed
| msg_failed_initialize (what : option string).

Inductive effect : Set :=
| D_LOG (lvl : log_level) (m : log_line)
| obs_source_skip_video_filter
| obs_source_process_filter_begin (ok : bool)
| input_render (w h : N)
| obs_source_process_filter_end (w h : N)
| nvidia_fx_size (sz : N * N)
| nvidia_fx_process
| nvidia_fx_set_strength (z : Z)
| gs_draw_sprite (t : texture) (w h : N).

Definition D_LOG_ERROR := D_LOG LOG_ERROR.
Definition D_LOG_WARNING := D_LOG LOG_WARNING.
Definition D_LOG_INFO := D_LOG LOG_INFO.

Definition is_error_line (e : effect) : bool :=
  match e with D_LOG LOG_ERROR _ => true | _ => false end.

Definition is_skip (e : effect) : bool :=
  match e with obs_source_skip_video_filter => true | _ => false end.

Definition is_draw (e : effect) : bool :=
  match e with gs_draw_sprite _ _ _ => true | _ => false end.

(** A call that reaches the backend object or one of the instance's
    [nvvfx_denoising_*] shims around it. *)
Definition is_provider_call (e : effect) : bool :=
  match e with
  | nvidia_fx_size _ | nvidia_fx_process | nvidia_fx_set_strength _ => true
  | _ => false
  end.

(** ** The worker pool *)

(** [struct switch_provider_data_t]: the only datum a switch task carries. *)
Record switch_provider_data_t := { provider : denoising_provider }.

(** A task of the pool: the bound member function is always
    [task_switch_provider], so a task is its handle and its data. *)
Record task := { handle : nat; data : switch_provider_data_t }.

(** Modelled from the spec: [streamfx::threadpool()] is defined in the
    plugin's utility code, not in this file.  §6 gives its two operations:
    [submit(closure, context) -> task_handle] and [cancel_if_queued]; §4.2
    adds that a task which already started is not interrupted.  [queue] holds
    the submitted tasks not yet picked up, [started] those a worker has picked
    up and which have not finished. *)
Record threadpool := {
  queue : list task;
  started : list task;
  next_handle : nat
}.

Definition push (tp : threadpool) (d : switch_provider_data_t)
  : threadpool * nat :=
  ({| queue := queue tp ++ [{| handle := next_handle tp; data := d |}];
      started := started tp;
      next_handle := S (next_handle tp) |},
   next_handle tp).

Definition pop (tp : threadpool) (h : nat) : threadpool :=
  {| queue := filter (fun t => negb (Nat.eqb (handle t) h)) (queue tp);
     started := started tp;
     next_handle := next_handle tp |}.

(** ** The filter instance *)

Record denoising_instance := {
  _size : N * N;
  _provider_ready : bool;
  _provider : denoising_provider;
  _provider_ui : provider_value;
  _provider_task : shared_ptr nat;
  _input : rendertarget;
  _output : shared_ptr texture;
  _dirty : bool;
  _nvidia_fx : shared_ptr vfx_denoising
}.

Definition set_size (v : N * N) (s : denoising_instance) :=
  {| _size := v; _provider_ready := _provider_ready s;
     _provider := _provider s; _provider_ui := _provider_ui s;
     _provider_task := _provider_task s; _input := _input s;
     _output := _output s; _dirty := _dirty s; _nvidia_fx := _nvidia_fx s |}.

Definition set_provider_ready (v : bool) (s : denoising_instance) :=
  {| _size := _size s; _provider_ready := v;
     _provider := _provider s; _provider_ui := _provider_ui s;
     _provider_task := _provider_task s; _input := _input s;
     _output := _output s; _dirty := _dirty s; _nvidia_fx := _nvidia_fx s |}.

Definition set_provider (v : denoising_provider) (s : denoising_instance) :=
  {| _size := _size s; _provider_ready := _provider_ready s;
     _provider := v; _provider_ui := _provider_ui s;
     _provider_task := _provider_task s; _input := _input s;
     _output := _output s; _dirty := _dirty s; _nvidia_fx := _nvidia_fx s |}.

Definition set_provider_ui (v : provider_value) (s : denoising_instance) :=
  {| _size := _size s; _provider_ready := _provider_ready s;
     _provider := _provider s; _provider_ui := v;
     _provider_task := _provider_task s; _input := _input s;
     _output := _output s; _dirty := _dirty s; _nvidia_fx := _nvidia_fx s |}.

Definition set_provider_task (v : shared_ptr nat) (s : denoising_instance) :=
  {| _size := _size s; _provider_ready := _provider_ready s;
     _provider := _provider s; _provider_ui := _provider_ui s;
     _provider_task := v; _input := _input s;
     _output := _output s; _dirty := _dirty s; _nvidia_fx := _nvidia_fx s |}.

Definition set_output (v : shared_ptr texture) (s : denoising_instance) :=
  {| _size := _size s; _provider_ready := _provider_ready s;
     _provider := _provider s; _provider_ui := _provider_ui s;
     _provider_task := _provider_task s; _input := _input s;
     _output := v; _dirty := _dirty s; _nvidia_fx := _nvidia_fx s |}.

Definition set_dirty (v : bool) (s : denoising_instance) :=
  {| _size := _size s; _provider_ready := _provider_ready s;
     _provider := _provider s; _provider_ui := _provider_ui s;
     _provider_task := _provider_task s; _input := _input s;
     _output := _output s; _dirty := v; _nvidia_fx := _nvidia_fx s |}.

Definition set_nvidia_fx (v : shared_ptr vfx_denoising) (s : denoising_instance) :=
  {| _size := _size s; _provider_ready := _provider_ready s;
     _provider := _provider s; _provider_ui := _provider_ui s;
     _provider_task := _provider_task s; _input := _input s;
     _output := _output s; _dirty := _dirty s; _nvidia_fx := v |}.

(** The result of a member function: final state, effects performed in order,
    and how the call ended. *)
Definition result : Type := denoising_instance * list effect * completion.

(** ** The factory object *)

(** [_nvidia_available] is the member of that name.  [registered] records
    whether the constructor reached step 3 ([finish_setup()]), that is,
    whether the host ever learns of the filter. *)
Record denoising_factory := {
  _nvidia_available : bool;
  registered : bool
}.

(** What the outside world answers during [denoising_factory::initialize]:
    the allocation by [std::make_shared], the loading of the NVIDIA
    libraries, and the registration with the host. *)
Record init_io := {
  make_shared_factory : outcome unit;
  nvidia_get : outcome unit;
  finish_setup : outcome unit
}.

(** What the backend answers during one run of the switch task. *)
Record switch_io := {
  make_shared_denoising : outcome vfx_denoising;
  destroy_denoising : outcome unit
}.

(** What the host and the backend answer during one tick or one render.
    Of the calls made on the way only the backend's [process] is given an
    exception to throw: the backend's [size] and the captures into [_input]
    are taken to return, and [fx_size] is the size that [size] settles on. *)
Record frame_io := {
  obs_filter_get_parent : option obs_source_t;
  obs_filter_get_target : option obs_source_t;
  fx_size : N * N -> N * N;
  begin1 : bool;
  process1 : outcome (shared_ptr texture);
  begin2 : bool;
  process2 : outcome (shared_ptr texture)
}.

(** ** Worlds and events *)

(** A filter instance with the pool that runs its switch tasks and the
    effects observed so far. *)
Record world := {
  inst : denoising_instance;
  pool : threadpool;
  effects : list effect
}.

(** What can happen to a world.  [EvSwitchProvider] is a direct call of
    [switch_provider]; [EvTaskStart k] lets a worker pick the [k]-th queued
    task and run its step 1; [EvTaskBody k io] lets the [k]-th started task
    acquire the lock and run to its end. *)
Inductive event :=
| EvUpdate (d : obs_data_t)
| EvSwitchProvider (p : denoising_provider)
| EvTick (io : frame_io)
| EvRender (io : frame_io)
| EvTaskStart (k : nat)
| EvTaskBody (k : nat) (io : switch_io).

Fixpoint remove_nth {A : Type} (k : nat) (l : list A) : list A :=
  match k, l with
  | _, [] => []
  | O, _ :: l' => l'
  | S k', x :: l' => x :: remove_nth k' l'
  end.

(** ** Calls in flight *)

(** [update], [video_tick] and [video_render] read [_provider_ready] and
    [_dirty] with no lock held, and hold [_provider_lock] only around parts
    of their bodies; the switch task writes [_provider_ready] with no lock
    held.  A call therefore runs in sections, and between two sections of a
    call anything else may run.  A [continuation] is what is left of a call:
    the section it runs next. *)
Inductive continuation :=
| k_update_switch (v : provider_value) (d : obs_data_t)
| k_update_check (d : obs_data_t)
| k_update_forward (d : obs_data_t)
| k_tick_size (io : frame_io)
| k_tick_dirty
| k_render_check1 (io : frame_io)
| k_render_block1 (io : frame_io)
| k_render_check2 (io : frame_io)
| k_render_block2 (io : frame_io)
| k_render_draw.

(** A world together with the calls that have begun and not yet ended. *)
Record fine_world := {
  base : world;
  in_flight : list continuation
}.

(** [FUpdate], [FTick] and [FRender] begin a call: its unlocked first part
    runs.  [FResume n] lets the [n]-th call in flight run its next section.
    [FAtomic e] is an event of the coarse kind: a direct switch, a task
    start, a task body, or a whole call with nothing running in between. *)
Inductive fine_event :=
| FUpdate (d : obs_data_t)
| FTick (io : frame_io)
| FRender (io : frame_io)
| FResume (n : nat)
| FAtomic (e : event).

Fixpoint replace_nth {A : Type} (k : nat) (x : A) (l : list A) : list A :=
  match k, l with
  | _, [] => []
  | O, _ :: l' => x :: l'
  | S k', y :: l' => y :: replace_nth k' x l'
  end.

(** The member initialisers of the constructor and its preallocated input
    target.  [_provider_ui] and [_dirty] have no initialiser in this file;
    their first values are arguments. *)
Definition denoising_instance_init (rt : rendertarget)
  (ui0 : provider_value) (dirty0 : bool) : denoising_instance :=
  {| _size := (1%N, 1%N);
     _provider_ready := false;
     _provider := INVALID;
     _provider_ui := ui0;
     _provider_task := None;
     _input := rt;
     _output := get_texture rt;
     _dirty := dirty0;
     _nvidia_fx := None |}.

Definition threadpool_init : threadpool :=
  {| queue := []; started := []; next_handle := 0 |}.

(** ** Property sheets *)

(** The names and translation keys this file passes to the host when it
    builds a property sheet; each constructor stands for the macro of that
    name. *)
Inductive symbol : Set :=
| S_MANUAL_OPEN
| S_ADVANCED
| S_STATE_AUTOMATIC
| ST_KEY_PROVIDER
| ST_I18N_PROVIDER
| ST_I18N_PROVIDER_NVIDIA_DENOISING
| ST_KEY_NVIDIA_DENOISING
| ST_I18N_NVIDIA_DENOISING
| ST_KEY_NVIDIA_DENOISING_STRENGTH
| ST_I18N_NVIDIA_DENOISING_STRENGTH
| ST_I18N_NVIDIA_DENOISING_STRENGTH_WEAK
| ST_I18N_NVIDIA_DENOISING_STRENGTH_STRONG.

(** The integer of a list entry: a literal, or
    [static_cast<int64_t>(denoising_provider::...)], kept as the enumerator
    because the header with the codes is not among the sources. *)
Inductive list_value : Set :=
| int_literal (z : Z)
| int_of_provider (p : denoising_provider).

(** [obs_property_list_add_int(p, label, value)]. *)
Record list_item := { item_label : symbol; item_value : list_value }.

(** An [obs_properties_t] is the list of what was added to it, in order. *)
#[local] Set Warnings "-register-all".
Inductive obs_property : Set :=
| obs_properties_add_button2 (name label : symbol)
| obs_properties_add_group (name label : symbol) (grp : list obs_property)
| obs_properties_add_list (name label : symbol) (items : list list_item).

Definition obs_properties_t : Set := list obs_property.

(** A piece of text: a literal, or the translation of a key. *)
Inductive text : Set :=
| literal (s : string)
| D_TRANSLATE (key : symbol).

(** [cstring]: the display name of a provider value; the [default] branch
    throws for an integer that is no enumerator. *)
Definition cstring (v : provider_value) : outcome text :=
  match v with
  | enumerator INVALID => Returns (literal "N/A")
  | enumerator AUTOMATIC => Returns (D_TRANSLATE S_STATE_AUTOMATIC)
  | enumerator NVIDIA_DENOISING =>
      Returns (D_TRANSLATE ST_I18N_PROVIDER_NVIDIA_DENOISING)
  | no_enumerator _ => Throws (std_exception "Missing Conversion Entry")
  end.

(** ** Concrete scenarios used further down *)

Definition hd_source : obs_source_t :=
  {| base_width := 1920; base_height := 1080 |}.

Definition sample_target : rendertarget := {| get_texture := Some 1%nat |}.

Definition factory_with_nvidia : denoising_factory :=
  {| _nvidia_available := true; registered := true |}.

Definition factory_without_providers : denoising_factory :=
  {| _nvidia_available := false; registered := false |}.

(** A host that has a 1920x1080 target and lets both captures begin; the
    backend, when there is one, hands back textures 2 and 3. *)
Definition frame_ok : frame_io :=
  {| obs_filter_get_parent := Some hd_source;
     obs_filter_get_target := Some hd_source;
     fx_size := fun sz => sz;
     begin1 := true;
     process1 := Returns (Some 2%nat);
     begin2 := true;
     process2 := Returns (Some 3%nat) |}.

(** The same host with a backend that returns no output. *)
Definition frame_no_output : frame_io :=
  {| obs_filter_get_parent := Some hd_source;
     obs_filter_get_target := Some hd_source;
     fx_size := fun sz => sz;
     begin1 := true;
     process1 := Returns None;
     begin2 := true;
     process2 := Returns None |}.

Definition switch_ok : switch_io :=
  {| make_shared_denoising := Returns {| strength := 1 |};
     destroy_denoising := Returns tt |}.

(** A backend whose construction throws something that is not a
    [std::exception]. *)
Definition switch_load_throws_non_std : switch_io :=
  {| make_shared_denoising := Throws non_std_exception;
     destroy_denoising := Returns tt |}.

(** Library loading that fails at start-up. *)
Definition init_nvidia_missing : init_io :=
  {| make_shared_factory := Returns tt;
     nvidia_get := Throws (std_exception "nvidia");
     finish_setup := Returns tt |}.

Definition request_automatic : obs_data_t :=
  {| data_provider := AUTOMATIC; data_nvidia_denoising_strength := 1 |}.

Definition request_nvidia : obs_data_t :=
  {| data_provider := NVIDIA_DENOISING; data_nvidia_denoising_strength := 1 |}.

Definition fresh_instance : denoising_instance :=
  denoising_instance_init sample_target INVALID true.

Definition fresh_world : world :=
  {| inst := fresh_instance; pool := threadpool_init; effects := [] |}.

(** An instance on NVIDIA with the backend loaded and a dirty frame. *)
Definition ready_nvidia_instance : denoising_instance :=
  set_nvidia_fx (Some {| strength := 1 |})
    (set_provider_ready true (set_provider NVIDIA_DENOISING fresh_instance)).

(** An instance that was just told to use NVIDIA: nothing is loaded yet. *)
Definition selected_nvidia_instance : denoising_instance :=
  set_provider NVIDIA_DENOISING fresh_instance.

(** A host like [frame_ok] whose backend pads the height by 8 each time it
    is asked for its size. *)
Definition frame_padding : frame_io :=
  {| obs_filter_get_parent := Some hd_source;
     obs_filter_get_target := Some hd_source;
     fx_size := fun sz => (fst sz, (snd sz + 8)%N);
     begin1 := true;
     process1 := Returns (Some 2%nat);
     begin2 := true;
     process2 := Returns (Some 3%nat) |}.

(** The same host with a backend whose first process call throws. *)
Definition frame_first_process_throws : frame_io :=
  {| obs_filter_get_parent := Some hd_source;
     obs_filter_get_target := Some hd_source;
     fx_size := fun sz => sz;
     begin1 := true;
     process1 := Throws non_std_exception;
     begin2 := true;
     process2 := Returns (Some 3%nat) |}.

(** The same host with a backend whose second process call throws. *)
Definition frame_second_process_throws : frame_io :=
  {| obs_filter_get_parent := Some hd_source;
     obs_filter_get_target := Some hd_source;
     fx_size := fun sz => sz;
     begin1 := true;
     process1 := Returns (Some 2%nat);
     begin2 := true;
     process2 := Throws non_std_exception |}.

(** Settings that ask for no provider. *)
Definition request_invalid : obs_data_t :=
  {| data_provider := INVALID; data_nvidia_denoising_strength := 1 |}.

(** A backend whose construction throws a [std::exception]. *)
Definition switch_load_throws_std : switch_io :=
  {| make_shared_denoising := Throws (std_exception "out of memory");
     destroy_denoising := Returns tt |}.

(** An instance that is ready on NVIDIA but has no backend object. *)
Definition ready_unloaded_nvidia_instance : denoising_instance :=
  set_provider_ready true (set_provider NVIDIA_DENOISING fresh_instance).

(** A start-up at which everything succeeds. *)
Definition init_ok : init_io :=
  {| make_shared_factory := Returns tt;
     nvidia_get := Returns tt;
     finish_setup := Returns tt |}.

Section Build.

(** The build option guarding every NVIDIA branch of the file. *)
Variable ENABLE_FILTER_DENOISING_NVIDIA : bool.

(** *** Factory: construction, availability, ideal provider *)

Definition denoising_factory_ctor (io : init_io)
  : outcome denoising_factory * list effect :=
  let '(available, tr) :=
    if ENABLE_FILTER_DENOISING_NVIDIA then
      match nvidia_get io with
      | Returns _ => (true, [])
      | Throws (std_exception w) =>
          (false, [D_LOG_WARNING (msg_nvidia_unavailable (Some w))])
      | Throws non_std_exception =>
          (false, [D_LOG_WARNING (msg_nvidia_unavailable None)])
      end
    else (false, []) in
  let any_available := available in
  if negb any_available then
    (Returns {| _nvidia_available := available; registered := false |},
     tr ++ [D_LOG_ERROR msg_all_providers_failed])
  else
    match finish_setup io with
    | Returns _ =>
        (Returns {| _nvidia_available := available; registered := true |}, tr)
    | Throws e => (Throws e, tr)
    end.

Definition is_provider_available (f : denoising_factory)
  (p : denoising_provider) : bool :=
  match p with
  | NVIDIA_DENOISING =>
      if ENABLE_FILTER_DENOISING_NVIDIA then _nvidia_available f else false
  | _ => false
  end.

Definition provider_priority : list denoising_provider :=
  [NVIDIA_DENOISING].

(** The [for (auto v : provider_priority)] loop, over any array. *)
Fixpoint find_ideal_provider_in (f : denoising_factory)
  (l : list denoising_provider) : denoising_provider :=
  match l with
  | [] => AUTOMATIC
  | v :: l' =>
      if is_provider_available f v then v else find_ideal_provider_in f l'
  end.

Definition find_ideal_provider (f : denoising_factory) : denoising_provider :=
  find_ideal_provider_in f provider_priority.

(** The global [_video_denoising_factory_instance] is threaded explicitly. *)
Definition _video_denoising_factory_instance_init
  : shared_ptr denoising_factory := None.

Definition initialize (io : init_io) (g : shared_ptr denoising_factory)
  : shared_ptr denoising_factory * list effect :=
  match g with
  | Some _ => (g, [])
  | None =>
      match make_shared_factory io with
      | Throws (std_exception w) =>
          (None, [D_LOG_ERROR (msg_failed_initialize (Some w))])
      | Throws non_std_exception =>
          (None, [D_LOG_ERROR (msg_failed_initialize None)])
      | Returns _ =>
          match denoising_factory_ctor io with
          | (Returns f, tr) => (Some f, tr)
          | (Throws (std_exception w), tr) =>
              (None, tr ++ [D_LOG_ERROR (msg_failed_initialize (Some w))])
          | (Throws non_std_exception, tr) =>
              (None, tr ++ [D_LOG_ERROR (msg_failed_initialize None)])
          end
      end
  end.

Definition finalize (g : shared_ptr denoising_factory)
  : shared_ptr denoising_factory := None.

Definition get (g : shared_ptr denoising_factory)
  : shared_ptr denoising_factory := g.

(** *** The NVIDIA shims of the instance *)

Definition nvvfx_denoising_load (io : switch_io) (s : denoising_instance)
  : result :=
  match make_shared_denoising io with
  | Returns fx => (set_nvidia_fx (Some fx) s, [], Normal)
  | Throws e => (s, [], Escaped e)
  end.

(** [_nvidia_fx.reset()] is [noexcept]: when the backend's destructor
    throws, nothing can catch it and the process terminates. *)
Definition nvvfx_denoising_unload (io : switch_io) (s : denoising_instance)
  : result :=
  match _nvidia_fx s with
  | None => (set_nvidia_fx None s, [], Normal)
  | Some _ =>
      match destroy_denoising io with
      | Returns _ => (set_nvidia_fx None s, [], Normal)
      | Throws _ => (set_nvidia_fx None s, [], Terminated)
      end
  end.

(** [_nvidia_fx->size(_size)] is taken to return (see [frame_io]). *)
Definition nvvfx_denoising_size (io : frame_io) (s : denoising_instance)
  : denoising_instance * list effect :=
  match _nvidia_fx s with
  | None => (s, [])
  | Some _ => (set_size (fx_size io (_size s)) s, [nvidia_fx_size (_size s)])
  end.

Definition nvvfx_denoising_process (r : outcome (shared_ptr texture))
  (s : denoising_instance) : result :=
  match _nvidia_fx s with
  | None => (set_output (get_texture (_input s)) s, [], Normal)
  | Some _ =>
      match r with
      | Returns t => (set_output t s, [nvidia_fx_process], Normal)
      | Throws e => (s, [nvidia_fx_process], Escaped e)
      end
  end.

Definition nvvfx_denoising_update (d : obs_data_t) (s : denoising_instance)
  : denoising_instance * list effect :=
  match _nvidia_fx s with
  | None => (s, [])
  | Some _ =>
      let v := if Z.eqb (data_nvidia_denoising_strength d) 0 then 0%Z else 1%Z in
      (set_nvidia_fx (Some {| strength := v |}) s, [nvidia_fx_set_strength v])
  end.

(** *** Switching the provider *)

Definition switch_provider (p : denoising_provider)
  (s : denoising_instance) (tp : threadpool)
  : denoising_instance * threadpool * list effect :=
  if provider_eqb p (_provider s) then (s, tp, [])
  else
    let tr := [D_LOG_INFO (msg_is_switching (_provider s) p)] in
    let tp1 := match _provider_task s with
               | Some h => pop tp h
               | None => tp
               end in
    let spd := {| provider := _provider s |} in
    let s1 := set_provider p s in
    let '(tp2, h) := push tp1 spd in
    (set_provider_task (Some h) s1, tp2, tr).

(** Step 1 of the task, executed before the lock is taken. *)
Definition task_switch_provider_mark (s : denoising_instance)
  : denoising_instance :=
  set_provider_ready false s.

(** The [catch (std::exception const& ex)] handler of the task. *)
Definition task_catch (r : result) : result :=
  match r with
  | (s, tr, Escaped (std_exception w)) =>
      (s, tr ++ [D_LOG_ERROR (msg_failed_switching w)], Normal)
  | _ => r
  end.

(** The [try] block of the task: steps 3 to 5. *)
Definition task_switch_provider_try (spd : switch_provider_data_t)
  (io : switch_io) (s : denoising_instance) : result :=
  let '(s1, tr1, c1) :=
    match provider spd with
    | NVIDIA_DENOISING =>
        if ENABLE_FILTER_DENOISING_NVIDIA
        then nvvfx_denoising_unload io s else (s, [], Normal)
    | _ => (s, [], Normal)
    end in
  match c1 with
  | Normal =>
      let '(s2, tr2, c2) :=
        match _provider s1 with
        | NVIDIA_DENOISING =>
            if ENABLE_FILTER_DENOISING_NVIDIA
            then nvvfx_denoising_load io s1 else (s1, [], Normal)
        | _ => (s1, [], Normal)
        end in
      match c2 with
      | Normal =>
          (set_provider_ready true s2,
           tr1 ++ tr2
             ++ [D_LOG_INFO (msg_switched (provider spd) (_provider s2))],
           Normal)
      | _ => (s2, tr1 ++ tr2, c2)
      end
  | _ => (s1, tr1, c1)
  end.

(** Steps 2 to 6 of the task, executed while it holds [_provider_lock]. *)
Definition task_switch_provider_locked (spd : switch_provider_data_t)
  (io : switch_io) (s : denoising_instance) : result :=
  task_catch (task_switch_provider_try spd io s).

(** The whole task when nothing else runs in between. *)
Definition task_switch_provider (spd : switch_provider_data_t)
  (io : switch_io) (s : denoising_instance) : result :=
  task_switch_provider_locked spd io (task_switch_provider_mark s).

(** *** update *)

(** [g] is the value of [denoising_factory::get()]; the source dereferences
    it without a check.  A stored integer that is no enumerator differs from
    [_provider], is written to [_provider_ui], and makes [switch_provider]
    throw where it builds its log line with [cstring(provider)], before it
    has changed anything; the exception leaves [update]. *)
Definition update (g : shared_ptr denoising_factory) (d : obs_data_t)
  (s : denoising_instance) (tp : threadpool)
  : denoising_instance * threadpool * list effect * completion :=
  let resolved :=
    match data_provider d with
    | enumerator AUTOMATIC =>
        match get g with
        | Some f => Some (enumerator (find_ideal_provider f))
        | None => None
        end
    | v => Some v
    end in
  match resolved with
  | None => (s, tp, [], NullDereference)
  | Some (no_enumerator z) =>
      match cstring (no_enumerator z) with
      | Throws e => (set_provider_ui (no_enumerator z) s, tp, [], Escaped e)
      | Returns _ => (set_provider_ui (no_enumerator z) s, tp, [], Normal)
      end
  | Some (enumerator p) =>
      let '(s1, tp1, tr1) :=
        if negb (provider_eqb p (_provider s))
        then switch_provider p (set_provider_ui p s) tp
        else (s, tp, []) in
      let '(s2, tr2) :=
        if _provider_ready s1 then
          match _provider s1 with
          | NVIDIA_DENOISING =>
              if ENABLE_FILTER_DENOISING_NVIDIA
              then nvvfx_denoising_update d s1 else (s1, [])
          | _ => (s1, [])
          end
        else (s1, []) in
      (s2, tp1, tr1 ++ tr2, Normal)
  end.

(** *** Reported size *)

Definition get_width (s : denoising_instance) : N := N.max (fst (_size s)) 1.
Definition get_height (s : denoising_instance) : N := N.max (snd (_size s)) 1.

(** *** video_tick *)

Definition video_tick (io : frame_io) (s : denoising_instance)
  : denoising_instance * list effect :=
  let target := obs_filter_get_target io in
  let width := obs_source_get_base_width target in
  let height := obs_source_get_base_height target in
  let s1 := set_size (width, height) s in
  let '(s2, tr) :=
    match target with
    | Some _ =>
        if _provider_ready s1 then
          match _provider s1 with
          | NVIDIA_DENOISING =>
              if ENABLE_FILTER_DENOISING_NVIDIA
              then nvvfx_denoising_size io s1 else (s1, [])
          | _ => (s1, [])
          end
        else (s1, [])
    | None => (s1, [])
    end in
  (set_dirty true s2, tr).

(** *** video_render *)

(** The two [switch (_provider)] statements that process the captured
    input: the NVIDIA shim, or [_output] reset to null. *)
Definition provider_process (r : outcome (shared_ptr texture))
  (s : denoising_instance) : result :=
  match _provider s with
  | NVIDIA_DENOISING =>
      if ENABLE_FILTER_DENOISING_NVIDIA
      then nvvfx_denoising_process r s else (set_output None s, [], Normal)
  | _ => (set_output None s, [], Normal)
  end.

(** A block of [video_render] either falls through ([None]) or leaves the
    function ([Some c]). *)
Definition block : Type := denoising_instance * list effect * option completion.

(** First [if (_dirty)] block: size restriction, capture, process. *)
Definition render_block1 (io : frame_io) (width height : N)
  (s : denoising_instance) : block :=
  let '(s1, tr1) :=
    match _provider s with
    | NVIDIA_DENOISING =>
        if ENABLE_FILTER_DENOISING_NVIDIA
        then nvvfx_denoising_size io s else (set_size (width, height) s, [])
    | _ => (set_size (width, height) s, [])
    end in
  if begin1 io then
    let tr2 := [obs_source_process_filter_begin true;
                input_render width height;
                obs_source_process_filter_end width height] in
    let '(s2, tr3, c) := provider_process (process1 io) s1 in
    match c with
    | Normal =>
        match _output s2 with
        | Some _ => (s2, tr1 ++ tr2 ++ tr3, None)
        | None =>
            (s2,
             tr1 ++ tr2 ++ tr3 ++
               [D_LOG_ERROR (msg_no_result (_provider s2));
                obs_source_skip_video_filter],
             Some Normal)
        end
    | _ => (s2, tr1 ++ tr2 ++ tr3, Some c)
    end
  else
    (s1,
     tr1 ++ [obs_source_process_filter_begin false;
             obs_source_skip_video_filter],
     Some Normal).

(** Second [if (_dirty)] block: capture, guarded process, clearing of the
    dirty flag. *)
Definition render_block2 (io : frame_io) (s : denoising_instance) : block :=
  if begin2 io then
    let tr1 := [obs_source_process_filter_begin true;
                input_render (fst (_size s)) (snd (_size s));
                obs_source_process_filter_end 1 1] in
    let '(s1, tr2, c) := provider_process (process2 io) s in
    match c with
    | Normal =>
        match _output s1 with
        | Some _ => (set_dirty false s1, tr1 ++ tr2, None)
        | None =>
            (s1,
             tr1 ++ tr2 ++
               [D_LOG_ERROR (msg_no_result (_provider s1));
                obs_source_skip_video_filter],
             Some Normal)
        end
    | _ => (s1, tr1 ++ tr2 ++ [obs_source_skip_video_filter], Some Normal)
    end
  else
    (s,
     [obs_source_process_filter_begin false; obs_source_skip_video_filter],
     Some Normal).

(** Last block: draw [_output]; [_output->get_object()] is not guarded. *)
Definition render_draw (s : denoising_instance) : result :=
  match _output s with
  | Some t => (s, [gs_draw_sprite t (fst (_size s)) (snd (_size s))], Normal)
  | None => (s, [], NullDereference)
  end.

(** The condition of the first [if] of [video_render]: the filter is skipped
    when the provider is not ready, when there is neither target nor parent,
    or when the width or height of the target is zero. *)
Definition render_guard_skips (io : frame_io) (s : denoising_instance) : bool :=
  negb (_provider_ready s)
  || match (match obs_filter_get_target io with
            | Some t => Some t
            | None => obs_filter_get_parent io
            end) with
     | Some _ => false
     | None => true
     end
  || N.eqb (obs_source_get_base_width (obs_filter_get_target io)) 0
  || N.eqb (obs_source_get_base_height (obs_filter_get_target io)) 0.

Definition video_render (io : frame_io) (s : denoising_instance) : result :=
  let target := obs_filter_get_target io in
  let width := obs_source_get_base_width target in
  let height := obs_source_get_base_height target in
  if render_guard_skips io s
  then (s, [obs_source_skip_video_filter], Normal)
  else
    let '(s1, tr1, r1) :=
      if _dirty s then render_block1 io width height s else (s, [], None) in
    match r1 with
    | Some c => (s1, tr1, c)
    | None =>
        let '(s2, tr2, r2) :=
          if _dirty s1 then render_block2 io s1 else (s1, [], None) in
        match r2 with
        | Some c => (s2, tr1 ++ tr2, c)
        | None =>
            let '(s3, tr3, c) := render_draw s2 in
            (s3, tr1 ++ tr2 ++ tr3, c)
        end
    end.

(** *** The instance among its collaborators *)

(** One event applied to a world.  [EvUpdate], [EvTick] and [EvRender] are
    whole calls, with nothing else running between their first and their last
    statement; the runs in which a switch request or a step of a task falls
    between two sections of a call are those of [fine_step] below.  Step 1
    of the task, which takes no lock, is an event of its own.  How a call
    ended is not kept: a world goes on after an escaped exception or a null
    dereference, so what holds of all runs holds in particular of those the
    real process survives. *)
Definition step (g : shared_ptr denoising_factory) (e : event) (w : world)
  : world :=
  match e with
  | EvUpdate d =>
      let '(s, tp, tr, _) := update g d (inst w) (pool w) in
      {| inst := s; pool := tp; effects := effects w ++ tr |}
  | EvSwitchProvider p =>
      let '(s, tp, tr) := switch_provider p (inst w) (pool w) in
      {| inst := s; pool := tp; effects := effects w ++ tr |}
  | EvTick io =>
      let '(s, tr) := video_tick io (inst w) in
      {| inst := s; pool := pool w; effects := effects w ++ tr |}
  | EvRender io =>
      let '(s, tr, _) := video_render io (inst w) in
      {| inst := s; pool := pool w; effects := effects w ++ tr |}
  | EvTaskStart k =>
      match nth_error (queue (pool w)) k with
      | Some t =>
          {| inst := task_switch_provider_mark (inst w);
             pool := {| queue := remove_nth k (queue (pool w));
                        started := started (pool w) ++ [t];
                        next_handle := next_handle (pool w) |};
             effects := effects w |}
      | None => w
      end
  | EvTaskBody k io =>
      match nth_error (started (pool w)) k with
      | Some t =>
          let '(s, tr, _) := task_switch_provider_locked (data t) io (inst w) in
          {| inst := s;
             pool := {| queue := queue (pool w);
                        started := remove_nth k (started (pool w));
                        next_handle := next_handle (pool w) |};
             effects := effects w ++ tr |}
      | None => w
      end
  end.

Fixpoint run (g : shared_ptr denoising_factory) (evs : list event) (w : world)
  : world :=
  match evs with
  | [] => w
  | e :: evs' => run g evs' (step g e w)
  end.

(** The constructor: the initial members, [_input->render(1, 1)], then
    [load(data)] when settings are given. *)
Definition denoising_instance_ctor (g : shared_ptr denoising_factory)
  (rt : rendertarget) (ui0 : denoising_provider) (dirty0 : bool)
  (d : option obs_data_t) : world :=
  let w := {| inst := denoising_instance_init rt ui0 dirty0;
              pool := threadpool_init;
              effects := [input_render 1 1] |} in
  match d with
  | Some d' => step g (EvUpdate d') w
  | None => w
  end.

(** Events the host and the pool can cause: everything but a direct call of
    [switch_provider], which only [update] makes. *)
Definition is_host_event (e : event) : bool :=
  match e with
  | EvSwitchProvider _ => false
  | _ => true
  end.

(** *** Destructor, load, migrate *)

(** The destructor body: under the lock, unload the backend of the active
    provider. *)
Definition denoising_instance_dtor (io : switch_io) (s : denoising_instance)
  : result :=
  match _provider s with
  | NVIDIA_DENOISING =>
      if ENABLE_FILTER_DENOISING_NVIDIA
      then nvvfx_denoising_unload io s else (s, [], Normal)
  | _ => (s, [], Normal)
  end.

Definition load (g : shared_ptr denoising_factory) (d : obs_data_t)
  (s : denoising_instance) (tp : threadpool)
  : denoising_instance * threadpool * list effect * completion :=
  update g d s tp.

Definition migrate (d : obs_data_t) (version : N) (s : denoising_instance)
  : denoising_instance := s.

(** *** Property sheets *)

Definition nvvfx_denoising_properties (props : obs_properties_t)
  : obs_properties_t :=
  let grp :=
    [obs_properties_add_list ST_KEY_NVIDIA_DENOISING_STRENGTH
       ST_I18N_NVIDIA_DENOISING_STRENGTH
       [{| item_label := ST_I18N_NVIDIA_DENOISING_STRENGTH_WEAK;
           item_value := int_literal 0 |};
        {| item_label := ST_I18N_NVIDIA_DENOISING_STRENGTH_STRONG;
           item_value := int_literal 1 |}]] in
  props ++ [obs_properties_add_group ST_KEY_NVIDIA_DENOISING
              ST_I18N_NVIDIA_DENOISING grp].

(** [denoising_instance::properties]: it switches on [_provider_ui]. *)
Definition properties (s : denoising_instance) (props : obs_properties_t)
  : obs_properties_t :=
  match _provider_ui s with
  | enumerator NVIDIA_DENOISING =>
      if ENABLE_FILTER_DENOISING_NVIDIA
      then nvvfx_denoising_properties props else props
  | _ => props
  end.

(** The build option guarding the manual button. *)
Variable ENABLE_FRONTEND : bool.

Definition get_properties2 (data : option denoising_instance)
  : obs_properties_t :=
  let pr := [] in
  let pr :=
    if ENABLE_FRONTEND
    then pr ++ [obs_properties_add_button2 S_MANUAL_OPEN S_MANUAL_OPEN]
    else pr in
  let pr := match data with Some s => properties s pr | None => pr end in
  pr ++ [obs_properties_add_group S_ADVANCED S_ADVANCED
           [obs_properties_add_list ST_KEY_PROVIDER ST_I18N_PROVIDER
              [{| item_label := S_STATE_AUTOMATIC;
                  item_value := int_of_provider AUTOMATIC |};
               {| item_label := ST_I18N_PROVIDER_NVIDIA_DENOISING;
                  item_value := int_of_provider NVIDIA_DENOISING |}]]].

(** [modified_provider]: the body cannot throw; it asks for a refresh. *)
Definition modified_provider : bool := true.

(** *** Calls in sections *)

(** The part of [update] before [switch_provider]: the request is read and
    resolved, compared with [_provider], and written to [_provider_ui] when
    it differs. *)
Definition begin_update (g : shared_ptr denoising_factory) (d : obs_data_t)
  (s : denoising_instance) : denoising_instance * option continuation :=
  let resolved :=
    match data_provider d with
    | enumerator AUTOMATIC =>
        match get g with
        | Some f => Some (enumerator (find_ideal_provider f))
        | None => None
        end
    | v => Some v
    end in
  match resolved with
  | None => (s, None)
  | Some (no_enumerator z) =>
      (set_provider_ui (no_enumerator z) s,
       Some (k_update_switch (no_enumerator z) d))
  | Some (enumerator p) =>
      if negb (provider_eqb p (_provider s))
      then (set_provider_ui p s, Some (k_update_switch p d))
      else (s, Some (k_update_check d))
  end.

(** The part of [video_tick] before the lock: the size is stored and
    [target && _provider_ready] is read. *)
Definition begin_tick (io : frame_io) (s : denoising_instance)
  : denoising_instance * option continuation :=
  let target := obs_filter_get_target io in
  let width := obs_source_get_base_width target in
  let height := obs_source_get_base_height target in
  let s1 := set_size (width, height) s in
  (s1,
   Some (match target with
         | Some _ => if _provider_ready s1 then k_tick_size io else k_tick_dirty
         | None => k_tick_dirty
         end)).

(** The first [if] of [video_render]. *)
Definition begin_render (io : frame_io) (s : denoising_instance)
  : list effect * option continuation :=
  if render_guard_skips io s
  then ([obs_source_skip_video_filter], None)
  else ([], Some (k_render_check1 io)).

(** One section of a call: the new state, what it did, and what is left. *)
Definition resume (k : continuation) (s : denoising_instance)
  (tp : threadpool)
  : denoising_instance * threadpool * list effect * option continuation :=
  match k with
  | k_update_switch v d =>
      match v with
      | enumerator p =>
          let '(s1, tp1, tr1) := switch_provider p s tp in
          (s1, tp1, tr1, Some (k_update_check d))
      | no_enumerator _ => (s, tp, [], None)
      end
  | k_update_check d =>
      (s, tp, [],
       if _provider_ready s then Some (k_update_forward d) else None)
  | k_update_forward d =>
      let '(s2, tr2) :=
        match _provider s with
        | NVIDIA_DENOISING =>
            if ENABLE_FILTER_DENOISING_NVIDIA
            then nvvfx_denoising_update d s else (s, [])
        | _ => (s, [])
        end in
      (s2, tp, tr2, None)
  | k_tick_size io =>
      let '(s2, tr2) :=
        match _provider s with
        | NVIDIA_DENOISING =>
            if ENABLE_FILTER_DENOISING_NVIDIA
            then nvvfx_denoising_size io s else (s, [])
        | _ => (s, [])
        end in
      (s2, tp, tr2, Some k_tick_dirty)
  | k_tick_dirty => (set_dirty true s, tp, [], None)
  | k_render_check1 io =>
      (s, tp, [],
       Some (if _dirty s then k_render_block1 io else k_render_check2 io))
  | k_render_block1 io =>
      let '(s1, tr1, r1) :=
        render_block1 io
          (obs_source_get_base_width (obs_filter_get_target io))
          (obs_source_get_base_height (obs_filter_get_target io)) s in
      (s1, tp, tr1,
       match r1 with Some _ => None | None => Some (k_render_check2 io) end)
  | k_render_check2 io =>
      (s, tp, [],
       Some (if _dirty s then k_render_block2 io else k_render_draw))
  | k_render_block2 io =>
      let '(s2, tr2, r2) := render_block2 io s in
      (s2, tp, tr2,
       match r2 with Some _ => None | None => Some k_render_draw end)
  | k_render_draw =>
      let '(s3, tr3, _) := render_draw s in
      (s3, tp, tr3, None)
  end.

Definition enqueue (k : option continuation) (l : list continuation)
  : list continuation :=
  match k with Some c => l ++ [c] | None => l end.

Definition fine_step (g : shared_ptr denoising_factory) (e : fine_event)
  (fw : fine_world) : fine_world :=
  let w := base fw in
  match e with
  | FUpdate d =>
      let '(s, k) := begin_update g d (inst w) in
      {| base := {| inst := s; pool := pool w; effects := effects w |};
         in_flight := enqueue k (in_flight fw) |}
  | FTick io =>
      let '(s, k) := begin_tick io (inst w) in
      {| base := {| inst := s; pool := pool w; effects := effects w |};
         in_flight := enqueue k (in_flight fw) |}
  | FRender io =>
      let '(tr, k) := begin_render io (inst w) in
      {| base := {| inst := inst w; pool := pool w;
                    effects := effects w ++ tr |};
         in_flight := enqueue k (in_flight fw) |}
  | FResume n =>
      match nth_error (in_flight fw) n with
      | Some c =>
          let '(s, tp, tr, next) := resume c (inst w) (pool w) in
          {| base := {| inst := s; pool := tp; effects := effects w ++ tr |};
             in_flight :=
               match next with
               | Some c' => replace_nth n c' (in_flight fw)
               | None => remove_nth n (in_flight fw)
               end |}
      | None => fw
      end
  | FAtomic e' => {| base := step g e' w; in_flight := in_flight fw |}
  end.

Fixpoint fine_run (g : shared_ptr denoising_factory) (evs : list fine_event)
  (fw : fine_world) : fine_world :=
  match evs with
  | [] => fw
  | e :: evs' => fine_run g evs' (fine_step g e fw)
  end.

(** Sections that are part of a render past its guard. *)
Definition is_render_section (k : continuation) : bool :=
  match k with
  | k_render_check1 _ | k_render_block1 _ | k_render_check2 _
  | k_render_block2 _ | k_render_draw => true
  | _ => false
  end.

(** Sections that are reached only after [_provider_ready] was read as
    true. *)
Definition needs_ready (k : continuation) : bool :=
  match k with
  | k_update_forward _ | k_tick_size _ => true
  | _ => is_render_section k
  end.

Definition is_fine_task_body (e : fine_event) : bool :=
  match e with
  | FAtomic (EvTaskBody _ _) => true
  | _ => false
  end.

(** No call in flight is past a read of [_provider_ready] as true. *)
Definition no_ready_section (l : list continuation) : bool :=
  forallb (fun k => negb (needs_ready k)) l.

(** *** Vocabulary of the statements *)

Definition state_of (r : result) : denoising_instance := fst (fst r).
Definition trace_of (r : result) : list effect := snd (fst r).
Definition completion_of (r : result) : completion := snd r.

Definition unavailable (f : denoising_factory) (v : denoising_provider) : Prop :=
  is_provider_available f v = false.

(** What one processing step hands back: [None] when it throws,
    [Some None] when it returns without an output, [Some (Some t)] when it
    returns the texture [t]. *)
Definition process_yields (r : outcome (shared_ptr texture))
  (s : denoising_instance) : option (shared_ptr texture) :=
  match provider_process r s with
  | (s', _, Normal) => Some (_output s')
  | _ => None
  end.

(** An event that may call [switch_provider]. *)
Definition calls_switch_provider (e : event) : bool :=
  match e with
  | EvUpdate _ | EvSwitchProvider _ => true
  | _ => false
  end.


Definition is_render (e : event) : bool :=
  match e with EvRender _ => true | _ => false end.

(** A schedule that lets every queued task start, then lets every started
    task run to its end, all with the same backend answers. *)
Definition drain_schedule (io : switch_io) (tp : threadpool) : list event :=
  repeat (EvTaskStart 0) (List.length (queue tp))
  ++ repeat (EvTaskBody 0 io)
       (List.length (queue tp) + List.length (started tp)).

(** At most one task is queued, and a queued task is the one the instance
    holds the handle of. *)
Definition pending_ok (s : denoising_instance) (tp : threadpool) : Prop :=
  List.length (queue tp) <= 1
  /\ forall t, In t (queue tp) -> _provider_task s = Some (handle t).

(** The identity [update] works with after resolving [AUTOMATIC]; [None]
    when it dereferences a null factory. *)
Definition resolved_provider (g : shared_ptr denoising_factory)
  (d : obs_data_t) : option provider_value :=
  match data_provider d with
  | enumerator AUTOMATIC =>
      match g with
      | Some f => Some (enumerator (find_ideal_provider f))
      | None => None
      end
  | v => Some v
  end.

(** The UI provider follows the active one once a provider was selected. *)
Definition ui_follows_active (s : denoising_instance) : Prop :=
  _provider s = INVALID \/ _provider_ui s = _provider s.

Definition is_log (e : effect) : bool :=
  match e with D_LOG _ _ => true | _ => false end.

(** The group [nvvfx_denoising_properties] adds, and the group that ends
    every sheet. *)
Definition nvidia_denoising_group : obs_property :=
  obs_properties_add_group ST_KEY_NVIDIA_DENOISING ST_I18N_NVIDIA_DENOISING
    [obs_properties_add_list ST_KEY_NVIDIA_DENOISING_STRENGTH
       ST_I18N_NVIDIA_DENOISING_STRENGTH
       [{| item_label := ST_I18N_NVIDIA_DENOISING_STRENGTH_WEAK;
           item_value := int_literal 0 |};
        {| item_label := ST_I18N_NVIDIA_DENOISING_STRENGTH_STRONG;
           item_value := int_literal 1 |}]].

Definition advanced_group : obs_property :=
  obs_properties_add_group S_ADVANCED S_ADVANCED
    [obs_properties_add_list ST_KEY_PROVIDER ST_I18N_PROVIDER
       [{| item_label := S_STATE_AUTOMATIC;
           item_value := int_of_provider AUTOMATIC |};
        {| item_label := ST_I18N_PROVIDER_NVIDIA_DENOISING;
           item_value := int_of_provider NVIDIA_DENOISING |}]].

Definition is_capture_begin (e : effect) : bool :=
  match e with obs_source_process_filter_begin _ => true | _ => false end.

Definition is_fx_process (e : effect) : bool :=
  match e with nvidia_fx_process => true | _ => false end.

Definition is_task_body (e : event) : bool :=
  match e with EvTaskBody _ _ => true | _ => false end.

(** The default settings of [get_defaults2]: the provider defaults to
    Automatic; the strength defaults to the number 1 in an NVIDIA build and
    has no default otherwise, in which case the host reads it as 0. *)
Definition get_defaults2 : obs_data_t :=
  {| data_provider := AUTOMATIC;
     data_nvidia_denoising_strength :=
       if ENABLE_FILTER_DENOISING_NVIDIA then 1 else 0 |}.

(** Whether a stored provider value is one of the enumerators, and whether
    an event asks for one. *)
Definition is_enumerator (v : provider_value) : bool :=
  match v with enumerator _ => true | no_enumerator _ => false end.

Definition requests_enumerator (e : event) : bool :=
  match e with
  | EvUpdate d => is_enumerator (data_provider d)
  | _ => true
  end.

(** ** Properties *)

Lemma provider_eqb_eq a b : provider_eqb a b = true <-> a = b.
Proof. destruct a, b; simpl; split; congruence. Qed.

Lemma provider_eqb_neq a b : provider_eqb a b = false <-> a <> b.
Proof. destruct a, b; simpl; split; congruence. Qed.

Lemma AUTOMATIC_unavailable f : is_provider_available f AUTOMATIC = false.
Proof. reflexivity. Qed.

(** *** Ideal provider *)

(** The loop returns the first available entry of the array it walks, and
    the sentinel when it walks off the end. *)
Lemma find_ideal_provider_in_first f l :
  (exists pre post,
      l = pre ++ find_ideal_provider_in f l :: post
      /\ is_provider_available f (find_ideal_provider_in f l) = true
      /\ Forall (unavailable f) pre)
  \/ (find_ideal_provider_in f l = AUTOMATIC /\ Forall (unavailable f) l).
Proof.
  induction l as [|v l IH]; simpl.
  - right. split; [reflexivity | constructor].
  - destruct (is_provider_available f v) eqn:Hv.
    + left. exists [], l. repeat split; auto.
    + destruct IH as [(pre & post & Hl & Ha & Hpre) | [Hr Hall]].
      * left. exists (v :: pre), post. repeat split; auto.
        simpl. congruence.
      * right. split; auto.
  Qed.

(** C9: [find_ideal_provider] returns the first identity of
    [provider_priority] whose availability flag is true; when no listed
    identity is available it returns [AUTOMATIC]; whatever it returns is
    either available or that sentinel, so an unavailable backend is never
    returned.  On the one-entry list of this file the result is
    [NVIDIA_DENOISING] exactly when the build has it and its flag is set. *)
Theorem find_ideal_provider_first_available (f : denoising_factory) :
  ((exists pre post,
       provider_priority = pre ++ find_ideal_provider f :: post
       /\ is_provider_available f (find_ideal_provider f) = true
       /\ Forall (unavailable f) pre)
   \/ (find_ideal_provider f = AUTOMATIC
       /\ Forall (unavailable f) provider_priority))
  /\ (is_provider_available f (find_ideal_provider f) = true
      \/ find_ideal_provider f = AUTOMATIC)
  /\ find_ideal_provider f =
       (if ENABLE_FILTER_DENOISING_NVIDIA && _nvidia_available f
        then NVIDIA_DENOISING else AUTOMATIC).
Proof.
  unfold find_ideal_provider.
  pose proof (find_ideal_provider_in_first f provider_priority) as H.
  split; [exact H|]. split.
  - destruct H as [(pre & post & _ & Ha & _) | [Hr _]]; auto.
  - simpl. destruct ENABLE_FILTER_DENOISING_NVIDIA, (_nvidia_available f);
      reflexivity.
Qed.

(** *** Factory handle *)

(** The constructor registers the filter only when a listed provider is
    available. *)
Lemma registered_factory_has_provider io f :
  fst (denoising_factory_ctor io) = Returns f ->
  registered f = true ->
  exists v, In v provider_priority /\ is_provider_available f v = true.
Proof.
  unfold denoising_factory_ctor, is_provider_available.
  intros Hc Hr. exists NVIDIA_DENOISING. split; [left; reflexivity|].
  destruct ENABLE_FILTER_DENOISING_NVIDIA; simpl in *.
  - destruct (nvidia_get io) as [u|[x|]]; simpl in *;
      try (inversion Hc; subst; discriminate).
    destruct (finish_setup io); simpl in *; inversion Hc; subst; reflexivity.
  - inversion Hc; subst; discriminate.
Qed.

(** The first [initialize()] constructs the factory when nothing throws. *)
Lemma initialize_constructs io :
  make_shared_factory io = Returns tt ->
  nvidia_get io = Returns tt ->
  finish_setup io = Returns tt ->
  initialize io None
  = (Some {| _nvidia_available := ENABLE_FILTER_DENOISING_NVIDIA;
             registered := ENABLE_FILTER_DENOISING_NVIDIA |},
     if ENABLE_FILTER_DENOISING_NVIDIA then []
     else [D_LOG_ERROR msg_all_providers_failed]).
Proof.
  intros H1 H2 H3. unfold initialize, denoising_factory_ctor.
  rewrite H1, H2, H3.
  destruct ENABLE_FILTER_DENOISING_NVIDIA; reflexivity.
Qed.

(** C10: [get()] is null before the first [initialize()] and after
    [finalize()], and [initialize()] on an existing instance changes
    nothing, logs nothing, and leaves [get()] as it was. *)
Theorem factory_handle_lifecycle :
  get _video_denoising_factory_instance_init = None
  /\ (forall n, get (Nat.iter n finalize _video_denoising_factory_instance_init) = None)
  /\ (forall g, get (finalize g) = None)
  /\ (forall io f, initialize io (Some f) = (Some f, []))
  /\ (forall io f, get (fst (initialize io (Some f))) = get (Some f)).
Proof.
  repeat split.
  - intros n. destruct n; reflexivity.
Qed.

(** *** Processing without a backend *)

(** C8 (amended): when the backend handle is absent,
    [nvvfx_denoising_process] does not raise and makes no backend call; it
    stores the input target's texture as the output, not a null result. *)
Theorem nvvfx_denoising_process_absent_backend
  (r : outcome (shared_ptr texture)) (s : denoising_instance)
  (Habsent : _nvidia_fx s = None) :
  nvvfx_denoising_process r s
  = (set_output (get_texture (_input s)) s, [], Normal).
Proof. unfold nvvfx_denoising_process. rewrite Habsent. reflexivity. Qed.

(** *** The dirty flag *)

Ltac break_render :=
  unfold process_yields, state_of, trace_of, completion_of in *;
  unfold video_render, render_block1, render_block2, render_draw,
    provider_process, nvvfx_denoising_process, nvvfx_denoising_size in *;
  unfold render_guard_skips in *;
  simpl in *.

Ltac in_list := simpl; repeat (first [left; reflexivity | right]).

Ltac split_cases :=
  repeat match goal with
         | H : context [match ?x with _ => _ end] |- _ =>
             destruct x eqn:?; simpl in *; try discriminate
         | |- context [match ?x with _ => _ end] =>
             destruct x eqn:?; simpl in *; try discriminate
         | H : context [if ?x then _ else _] |- _ =>
             destruct x eqn:?; simpl in *; try discriminate
         | |- context [if ?x then _ else _] =>
             destruct x eqn:?; simpl in *; try discriminate
         end.

Lemma video_tick_sets_dirty io s : _dirty (fst (video_tick io s)) = true.
Proof.
  unfold video_tick, nvvfx_denoising_size. simpl.
  split_cases; reflexivity.
Qed.

Lemma video_render_clears_dirty_only_on_success io s :
  _dirty s = true ->
  _dirty (state_of (video_render io s)) = false ->
  render_guard_skips io s = false
  /\ begin1 io = true /\ begin2 io = true
  /\ completion_of (video_render io s) = Normal
  /\ filter is_skip (trace_of (video_render io s)) = []
  /\ exists t,
      process_yields (process2 io) s = Some (Some t)
      /\ _output (state_of (video_render io s)) = Some t
      /\ In (gs_draw_sprite t (fst (_size (state_of (video_render io s))))
                              (snd (_size (state_of (video_render io s)))))
            (trace_of (video_render io s)).
Proof.
  destruct s as [sz rdy p ui tk [inp] out d fx].
  destruct io as [par tgt fsz b1 p1 b2 p2].
  intros Hd Hc. simpl in Hd. subst d.
  break_render.
  destruct rdy; simpl in *; [|congruence].
  destruct tgt as [[w h]|], par as [[pw ph]|]; simpl in *; try congruence;
    destruct (N.eqb w 0), (N.eqb h 0); simpl in *; try congruence;
    destruct p, ENABLE_FILTER_DENOISING_NVIDIA, b1; simpl in *; try congruence;
    destruct fx; simpl in *; try congruence;
    try (destruct p1 as [[t1|]|e1]; simpl in *; try congruence);
    try (destruct inp; simpl in *; try congruence);
    destruct b2; simpl in *; try congruence;
    try (destruct p2 as [[t2|]|e2]; simpl in *; try congruence);
    (repeat split; try reflexivity);
    eexists; (split; [reflexivity | split; [reflexivity | in_list]]).
Qed.

Lemma video_render_no_output_keeps_dirty io s :
  render_guard_skips io s = false ->
  _dirty s = true ->
  begin1 io = true ->
  process_yields (process1 io) s = Some None
  \/ ((exists t, process_yields (process1 io) s = Some (Some t))
      /\ begin2 io = true
      /\ process_yields (process2 io) s = Some None) ->
  _dirty (state_of (video_render io s)) = true
  /\ _output (state_of (video_render io s)) = None
  /\ completion_of (video_render io s) = Normal
  /\ last (trace_of (video_render io s)) nvidia_fx_process
     = obs_source_skip_video_filter
  /\ filter is_draw (trace_of (video_render io s)) = []
  /\ In (D_LOG_ERROR (msg_no_result (_provider s)))
        (trace_of (video_render io s)).
Proof.
  destruct s as [sz rdy p ui tk [inp] out d fx].
  destruct io as [par tgt fsz b1 p1 b2 p2].
  intros Hg Hd Hb1 Hy. simpl in Hd, Hb1. subst d b1.
  break_render.
  destruct rdy; simpl in *; [|congruence].
  destruct tgt as [[w h]|], par as [[pw ph]|]; simpl in *; try congruence;
    destruct (N.eqb w 0), (N.eqb h 0); simpl in *; try congruence;
    destruct p, ENABLE_FILTER_DENOISING_NVIDIA; simpl in *;
    destruct fx; simpl in *;
    try (destruct p1 as [[t1|]|e1]; simpl in *);
    try (destruct inp; simpl in *);
    try (destruct Hy as [Hy | [[tx Htx] [Hb2 Hy]]];
         try congruence; try subst b2; simpl in *);
    try (destruct p2 as [[t2|]|e2]; simpl in *; try congruence);
    repeat split; try reflexivity; try congruence; in_list.
Qed.

Lemma update_keeps_dirty g d s tp :
  _dirty (fst (fst (fst (update g d s tp)))) = _dirty s.
Proof.
  unfold update, get, switch_provider, nvvfx_denoising_update.
  destruct s as [sz rdy p ui tk inp out dd fx]. simpl.
  destruct (data_provider d) as [[| |]|z], g as [f|]; simpl; try reflexivity;
    try destruct (find_ideal_provider f); simpl;
    destruct p, rdy, ENABLE_FILTER_DENOISING_NVIDIA, fx; reflexivity.
Qed.

Lemma switch_provider_keeps_dirty p s tp :
  _dirty (fst (fst (switch_provider p s tp))) = _dirty s.
Proof.
  unfold switch_provider.
  destruct (provider_eqb p (_provider s)); reflexivity.
Qed.

Lemma task_switch_provider_locked_keeps_dirty spd io s :
  _dirty (state_of (task_switch_provider_locked spd io s)) = _dirty s.
Proof.
  destruct s as [sz rdy p ui tk inp out d [fx0|]];
    destruct spd as [old];
    destruct io as [[fx1|[w1|]] [[]|[w2|]]];
    unfold task_switch_provider_locked, task_switch_provider_try, task_catch,
      nvvfx_denoising_unload, nvvfx_denoising_load, state_of; simpl;
    destruct old, p, ENABLE_FILTER_DENOISING_NVIDIA; reflexivity.
Qed.

(** Nothing but a render turns [_dirty] off. *)
Lemma step_other_than_render_keeps_dirty g e w :
  is_render e = false ->
  _dirty (inst w) = true ->
  _dirty (inst (step g e w)) = true.
Proof.
  destruct e as [d|p|io|io|k|k io]; simpl; intros He Hd; try discriminate.
  - pose proof (update_keeps_dirty g d (inst w) (pool w)) as K.
    destruct (update g d (inst w) (pool w)) as [[[s tp] tr] c].
    simpl in *. congruence.
  - pose proof (switch_provider_keeps_dirty p (inst w) (pool w)) as K.
    destruct (switch_provider p (inst w) (pool w)) as [[s tp] tr].
    simpl in *. congruence.
  - pose proof (video_tick_sets_dirty io (inst w)) as K.
    destruct (video_tick io (inst w)) as [s tr]. exact K.
  - destruct (nth_error (queue (pool w)) k); simpl; exact Hd.
  - destruct (nth_error (started (pool w)) k) as [t|]; [|exact Hd].
    pose proof (task_switch_provider_locked_keeps_dirty (data t) io (inst w)) as K.
    destruct (task_switch_provider_locked (data t) io (inst w)) as [[s tr] c].
    unfold state_of in K. simpl in *. congruence.
Qed.

(** C5: every tick sets [_dirty]; no update, switch or task execution turns
    it off; a render turns a set [_dirty] off only
    when it got past the guard, both captures began, the provider's process
    step returned a texture, and that texture is stored and drawn with no
    skip; and whenever a process step returns no output, the render logs,
    ends in a skip without drawing, and [_dirty] stays set. *)
Theorem dirty_flag_protocol :
  (forall io s, _dirty (fst (video_tick io s)) = true)
  /\ (forall g e w,
        is_render e = false ->
        _dirty (inst w) = true ->
        _dirty (inst (step g e w)) = true)
  /\ (forall io s,
        _dirty s = true ->
        _dirty (state_of (video_render io s)) = false ->
        render_guard_skips io s = false
        /\ begin1 io = true /\ begin2 io = true
        /\ completion_of (video_render io s) = Normal
        /\ filter is_skip (trace_of (video_render io s)) = []
        /\ exists t,
            process_yields (process2 io) s = Some (Some t)
            /\ _output (state_of (video_render io s)) = Some t
            /\ In (gs_draw_sprite t
                     (fst (_size (state_of (video_render io s))))
                     (snd (_size (state_of (video_render io s)))))
                  (trace_of (video_render io s)))
  /\ (forall io s,
        render_guard_skips io s = false ->
        _dirty s = true ->
        begin1 io = true ->
        process_yields (process1 io) s = Some None
        \/ ((exists t, process_yields (process1 io) s = Some (Some t))
            /\ begin2 io = true
            /\ process_yields (process2 io) s = Some None) ->
        _dirty (state_of (video_render io s)) = true
        /\ _output (state_of (video_render io s)) = None
        /\ completion_of (video_render io s) = Normal
        /\ last (trace_of (video_render io s)) nvidia_fx_process
           = obs_source_skip_video_filter
        /\ filter is_draw (trace_of (video_render io s)) = []
        /\ In (D_LOG_ERROR (msg_no_result (_provider s)))
              (trace_of (video_render io s))).
Proof.
  split; [exact video_tick_sets_dirty|].
  split; [exact step_other_than_render_keeps_dirty|].
  split; [exact video_render_clears_dirty_only_on_success|].
  exact video_render_no_output_keeps_dirty.
Qed.

(** *** The switch task *)

Ltac break_task :=
  unfold task_switch_provider, task_switch_provider_locked,
    task_switch_provider_try, task_catch, task_switch_provider_mark,
    nvvfx_denoising_unload, nvvfx_denoising_load,
    state_of, trace_of, completion_of in *;
  simpl in *.

Ltac task_cases s spd io :=
  destruct s as [sz rdy p ui tk inp out d [fx0|]];
  destruct spd as [old];
  destruct io as [[fx1|[w1|]] [[]|[w2|]]];
  break_task;
  destruct old, p, ENABLE_FILTER_DENOISING_NVIDIA; simpl in *.

Lemma task_switch_provider_locked_keeps_provider spd io s :
  _provider (state_of (task_switch_provider_locked spd io s)) = _provider s.
Proof. task_cases s spd io; reflexivity. Qed.

(** A failure that is a [std::exception] is caught: it is logged as an
    error, the task ends normally, [_provider_ready] stays false and
    [_provider] is untouched. *)
Lemma task_switch_provider_std_exception_caught spd io s w :
  completion_of
    (task_switch_provider_try spd io (task_switch_provider_mark s))
  = Escaped (std_exception w) ->
  completion_of (task_switch_provider spd io s) = Normal
  /\ filter is_error_line (trace_of (task_switch_provider spd io s))
     = [D_LOG_ERROR (msg_failed_switching w)]
  /\ _provider_ready (state_of (task_switch_provider spd io s)) = false
  /\ _provider (state_of (task_switch_provider spd io s)) = _provider s.
Proof.
  intros H; task_cases s spd io; try discriminate;
    inversion H; subst; repeat split; reflexivity.
Qed.

(** C7 (the failing case): when unload or load raises something that is not
    a [std::exception], the handler of the task does not apply: the exception
    leaves [task_switch_provider] and no error line is written.
    [_provider_ready] stays false and [_provider] is untouched. *)
Theorem task_switch_provider_non_std_exception_escapes spd io s
  (Hfail : completion_of
             (task_switch_provider_try spd io (task_switch_provider_mark s))
           = Escaped non_std_exception) :
  completion_of (task_switch_provider spd io s) = Escaped non_std_exception
  /\ filter is_error_line (trace_of (task_switch_provider spd io s)) = []
  /\ _provider_ready (state_of (task_switch_provider spd io s)) = false
  /\ _provider (state_of (task_switch_provider spd io s)) = _provider s.
Proof.
  task_cases s spd io; try discriminate; repeat split; reflexivity.
Qed.

(** C1 (amended): the data of the task that [switch_provider] submits is the
    identity being vacated, nothing else; when the task runs and neither
    unload nor load throws, its load step acts on the instance's [_provider]
    as it is at that moment, and [_provider_ready] becomes true without any
    comparison against an identity remembered from submission. *)
Theorem switch_task_loads_current_provider :
  (forall p s tp,
      p <> _provider s ->
      _provider (fst (fst (switch_provider p s tp))) = p
      /\ exists h q,
          _provider_task (fst (fst (switch_provider p s tp))) = Some h
          /\ queue (snd (fst (switch_provider p s tp)))
             = q ++ [{| handle := h; data := {| provider := _provider s |} |}])
  /\ (forall spd io s fx,
        destroy_denoising io = Returns tt ->
        make_shared_denoising io = Returns fx ->
        completion_of (task_switch_provider_locked spd io s) = Normal
        /\ _provider_ready (state_of (task_switch_provider_locked spd io s))
           = true
        /\ _provider (state_of (task_switch_provider_locked spd io s))
           = _provider s
        /\ _nvidia_fx (state_of (task_switch_provider_locked spd io s))
           = match _provider s with
             | NVIDIA_DENOISING =>
                 if ENABLE_FILTER_DENOISING_NVIDIA
                 then Some fx else _nvidia_fx s
             | _ =>
                 match provider spd with
                 | NVIDIA_DENOISING =>
                     if ENABLE_FILTER_DENOISING_NVIDIA
                     then None else _nvidia_fx s
                 | _ => _nvidia_fx s
                 end
             end).
Proof.
  split.
  - intros p s tp Hneq. unfold switch_provider.
    apply provider_eqb_neq in Hneq. rewrite Hneq. simpl.
    split; [reflexivity|].
    eexists _, _. split; reflexivity.
  - intros spd io s fx Hd Hm.
    task_cases s spd io; try discriminate;
      inversion Hm; subst; repeat split; reflexivity.
Qed.

(** *** Runs of the world *)

Lemma run_app g evs1 evs2 w :
  run g (evs1 ++ evs2) w = run g evs2 (run g evs1 w).
Proof. revert w; induction evs1 as [|e evs1 IH]; intros w; simpl; auto. Qed.

Lemma switch_provider_sets_provider p s tp :
  _provider (fst (fst (switch_provider p s tp))) = p.
Proof.
  unfold switch_provider.
  destruct (provider_eqb p (_provider s)) eqn:E; simpl.
  - apply provider_eqb_eq in E. congruence.
  - reflexivity.
Qed.

Lemma video_tick_keeps_provider io s :
  _provider (fst (video_tick io s)) = _provider s.
Proof.
  destruct s as [sz rdy p ui tk inp out d fx].
  destruct io as [par tgt fsz b1 p1 b2 p2].
  unfold video_tick, nvvfx_denoising_size; simpl.
  destruct tgt, rdy, p, ENABLE_FILTER_DENOISING_NVIDIA, fx; reflexivity.
Qed.

Lemma video_render_keeps_provider io s :
  _provider (state_of (video_render io s)) = _provider s.
Proof.
  destruct s as [sz rdy p ui tk [inp] out d fx].
  destruct io as [par tgt fsz b1 p1 b2 p2].
  break_render.
  destruct rdy; simpl; [|reflexivity].
  destruct tgt as [[w h]|], par as [[pw ph]|]; simpl; try reflexivity;
    destruct (N.eqb w 0), (N.eqb h 0); simpl; try reflexivity;
    destruct d, p, ENABLE_FILTER_DENOISING_NVIDIA, b1, fx; simpl;
    try reflexivity;
    try (destruct p1 as [[t1|]|e1]; simpl; try reflexivity);
    try (destruct inp; simpl; try reflexivity);
    try (destruct out; simpl; try reflexivity);
    destruct b2; simpl; try reflexivity;
    try (destruct p2 as [[t2|]|e2]; simpl; try reflexivity).
Qed.

Lemma step_keeps_provider g e w :
  calls_switch_provider e = false ->
  _provider (inst (step g e w)) = _provider (inst w).
Proof.
  destruct e as [d|p|io|io|k|k io]; simpl; intros H; try discriminate.
  - pose proof (video_tick_keeps_provider io (inst w)) as K.
    destruct (video_tick io (inst w)) as [s tr]; exact K.
  - pose proof (video_render_keeps_provider io (inst w)) as K.
    destruct (video_render io (inst w)) as [[s tr] c]; exact K.
  - destruct (nth_error (queue (pool w)) k); reflexivity.
  - destruct (nth_error (started (pool w)) k) as [t|]; [|reflexivity].
    pose proof (task_switch_provider_locked_keeps_provider (data t) io (inst w)) as K.
    destruct (task_switch_provider_locked (data t) io (inst w)) as [[s tr] c].
    exact K.
Qed.

Lemma run_keeps_provider g evs w :
  forallb (fun e => negb (calls_switch_provider e)) evs = true ->
  _provider (inst (run g evs w)) = _provider (inst w).
Proof.
  revert w; induction evs as [|e evs IH]; intros w H; simpl in *; auto.
  apply andb_prop in H. destruct H as [He Hevs].
  rewrite IH by assumption.
  apply step_keeps_provider. now apply negb_true_iff in He.
Qed.

Lemma run_task_starts g n w :
  n = List.length (queue (pool w)) ->
  queue (pool (run g (repeat (EvTaskStart 0) n) w)) = []
  /\ List.length (started (pool (run g (repeat (EvTaskStart 0) n) w)))
     = List.length (started (pool w)) + n.
Proof.
  revert w. induction n as [|n IH]; intros w Hn; simpl.
  - destruct (queue (pool w)); [auto with arith | discriminate].
  - destruct (queue (pool w)) as [|t q] eqn:Hq; [discriminate|].
    simpl in Hn.
    destruct (IH {| inst := task_switch_provider_mark (inst w);
                    pool := {| queue := q;
                               started := started (pool w) ++ [t];
                               next_handle := next_handle (pool w) |};
                    effects := effects w |}) as [IH1 IH2].
    { simpl. congruence. }
    split; [exact IH1|].
    rewrite IH2. simpl. rewrite length_app. simpl. lia.
Qed.

Lemma run_task_bodies g io n w :
  queue (pool w) = [] ->
  n = List.length (started (pool w)) ->
  queue (pool (run g (repeat (EvTaskBody 0 io) n) w)) = []
  /\ started (pool (run g (repeat (EvTaskBody 0 io) n) w)) = [].
Proof.
  revert w. induction n as [|n IH]; intros w Hq Hn; simpl.
  - destruct (started (pool w)); [auto | discriminate].
  - destruct (started (pool w)) as [|t l] eqn:Hs; [discriminate|].
    simpl in Hn. simpl.
    destruct (task_switch_provider_locked (data t) io (inst w))
      as [[s tr] c].
    apply IH; simpl; congruence.
Qed.

Lemma drain_schedule_drains g io w :
  queue (pool (run g (drain_schedule io (pool w)) w)) = []
  /\ started (pool (run g (drain_schedule io (pool w)) w)) = [].
Proof.
  unfold drain_schedule. rewrite run_app.
  destruct (run_task_starts g (List.length (queue (pool w))) w eq_refl)
    as [Hq Hs].
  apply run_task_bodies; [exact Hq|]. rewrite Hs. lia.
Qed.

Lemma drain_schedule_no_switch io tp :
  forallb (fun e => negb (calls_switch_provider e)) (drain_schedule io tp)
  = true.
Proof.
  unfold drain_schedule. rewrite forallb_app.
  apply andb_true_intro; split; apply forallb_forall;
    intros e He; apply repeat_spec in He; subst e; reflexivity.
Qed.

(** C2: after the last call of [switch_provider], whatever tasks start and
    finish afterwards, in whatever order and with whatever outcome, and
    whatever ticks and renders happen, [_provider] is the identity passed to
    that last call; in particular it is so once every enqueued task has run,
    a state the pool does reach. *)
Theorem last_switch_provider_wins g w evs p :
  (forall rest,
      forallb (fun e => negb (calls_switch_provider e)) rest = true ->
      _provider (inst (run g (evs ++ EvSwitchProvider p :: rest) w)) = p)
  /\ (forall io,
        queue (pool (run g (drain_schedule io
                              (pool (run g (evs ++ [EvSwitchProvider p]) w)))
                       (run g (evs ++ [EvSwitchProvider p]) w))) = []
        /\ started (pool (run g (drain_schedule io
                              (pool (run g (evs ++ [EvSwitchProvider p]) w)))
                       (run g (evs ++ [EvSwitchProvider p]) w))) = []
        /\ _provider
             (inst (run g (drain_schedule io
                              (pool (run g (evs ++ [EvSwitchProvider p]) w)))
                       (run g (evs ++ [EvSwitchProvider p]) w))) = p).
Proof.
  assert (Hcall : _provider (inst (run g (evs ++ [EvSwitchProvider p]) w)) = p).
  { rewrite run_app. simpl.
    pose proof (switch_provider_sets_provider p (inst (run g evs w))
                  (pool (run g evs w))) as K.
    destruct (switch_provider p (inst (run g evs w)) (pool (run g evs w)))
      as [[s tp] tr].
    exact K. }
  split.
  - intros rest Hrest.
    replace (evs ++ EvSwitchProvider p :: rest)
      with ((evs ++ [EvSwitchProvider p]) ++ rest)
      by (rewrite <- app_assoc; reflexivity).
    rewrite run_app, run_keeps_provider by assumption. exact Hcall.
  - intros io.
    destruct (drain_schedule_drains g io
                (run g (evs ++ [EvSwitchProvider p]) w)) as [Hq Hs].
    repeat split; auto.
    rewrite run_keeps_provider by apply drain_schedule_no_switch.
    exact Hcall.
Qed.

(** *** The active provider and the Automatic sentinel *)

Lemma find_ideal_provider_available_not_automatic f :
  (exists v, In v provider_priority /\ is_provider_available f v = true) ->
  find_ideal_provider f <> AUTOMATIC.
Proof.
  intros (v & Hin & Hv) Hr. unfold find_ideal_provider in Hr.
  destruct (find_ideal_provider_in_first f provider_priority)
    as [(pre & post & _ & Ha & _) | [_ Hall]].
  - rewrite Hr in Ha. discriminate.
  - rewrite Forall_forall in Hall. specialize (Hall v Hin).
    unfold unavailable in Hall. congruence.
Qed.


Lemma nvvfx_denoising_update_keeps_provider d s :
  _provider (fst (nvvfx_denoising_update d s)) = _provider s.
Proof. unfold nvvfx_denoising_update. destruct (_nvidia_fx s); reflexivity. Qed.

(** The identity [update] leaves in [_provider]: the requested one, with
    [AUTOMATIC] replaced by whatever [find_ideal_provider] answers. *)
Lemma update_provider g d s tp :
  _provider (fst (fst (fst (update g d s tp))))
  = match data_provider d with
    | enumerator AUTOMATIC =>
        match g with
        | Some f => find_ideal_provider f
        | None => _provider s
        end
    | enumerator q => q
    | no_enumerator _ => _provider s
    end.
Proof.
  unfold update, get.
  assert (K : forall q,
    _provider (fst (fst (fst
      (let '(s1, tp1, tr1) :=
         if negb (provider_eqb q (_provider s))
         then switch_provider q (set_provider_ui q s) tp
         else (s, tp, []) in
       let '(s2, tr2) :=
         if _provider_ready s1 then
           match _provider s1 with
           | NVIDIA_DENOISING =>
               if ENABLE_FILTER_DENOISING_NVIDIA
               then nvvfx_denoising_update d s1 else (s1, [])
           | _ => (s1, [])
           end
         else (s1, []) in
       (s2, tp1, tr1 ++ tr2, Normal))))) = q).
  { intros q.
    destruct (provider_eqb q (_provider s)) eqn:E; simpl.
    - apply provider_eqb_eq in E.
      destruct (_provider_ready s); simpl; try congruence.
      destruct (_provider s) eqn:Ep; simpl; try congruence.
      destruct ENABLE_FILTER_DENOISING_NVIDIA; simpl; try congruence.
      pose proof (nvvfx_denoising_update_keeps_provider d s) as Hu.
      destruct (nvvfx_denoising_update d s); simpl in *. congruence.
    - pose proof (switch_provider_sets_provider q (set_provider_ui q s) tp) as Hs.
      destruct (switch_provider q (set_provider_ui q s) tp) as [[s1 tp1] tr1].
      simpl in Hs.
      destruct (_provider_ready s1); simpl; try congruence.
      destruct (_provider s1) eqn:Ep; simpl; try congruence.
      destruct ENABLE_FILTER_DENOISING_NVIDIA; simpl; try congruence.
      pose proof (nvvfx_denoising_update_keeps_provider d s1) as Hu.
      destruct (nvvfx_denoising_update d s1); simpl in *. congruence. }
  destruct (data_provider d) as [[| |]|z];
    [apply K | | apply K | reflexivity].
  destruct g as [f|]; [apply K | reflexivity].
Qed.

Lemma step_host_not_automatic f e w :
  find_ideal_provider f <> AUTOMATIC ->
  is_host_event e = true ->
  _provider (inst w) <> AUTOMATIC ->
  _provider (inst (step (Some f) e w)) <> AUTOMATIC.
Proof.
  intros Hf He Hw.
  destruct e as [d|p|io|io|k|k io]; try discriminate;
    try (rewrite step_keeps_provider by reflexivity; exact Hw).
  simpl.
  pose proof (update_provider (Some f) d (inst w) (pool w)) as K.
  destruct (update (Some f) d (inst w) (pool w)) as [[[s tp] tr] c].
  simpl in *. rewrite K.
  destruct (data_provider d) as [[| |]|z]; congruence.
Qed.

(** From its construction on, through updates, ticks, renders and task
    executions, the instance never has [AUTOMATIC] as [_provider], provided
    some entry of [provider_priority] is available in the factory that
    [update] consults. *)
Lemma available_provider_never_automatic f rt ui0 dirty0 d evs
  (Havail : exists v, In v provider_priority
                      /\ is_provider_available f v = true)
  (Hhost : forallb is_host_event evs = true) :
  _provider
    (inst (run (Some f) evs
             (denoising_instance_ctor (Some f) rt ui0 dirty0 d)))
  <> AUTOMATIC.
Proof.
  apply find_ideal_provider_available_not_automatic in Havail.
  assert (H0 : _provider
                 (inst (denoising_instance_ctor (Some f) rt ui0 dirty0 d))
               <> AUTOMATIC).
  { unfold denoising_instance_ctor. destruct d as [d|].
    - apply step_host_not_automatic; auto. simpl. discriminate.
    - simpl. discriminate. }
  revert H0. generalize (denoising_instance_ctor (Some f) rt ui0 dirty0 d).
  induction evs as [|e evs IH]; intros w Hw; simpl in *; auto.
  apply andb_prop in Hhost. destruct Hhost as [He Hevs].
  apply IH; auto. apply step_host_not_automatic; auto.
Qed.

(** C3: an instance is created only by a factory whose constructor went on
    to register the filter.  From the construction of such an instance on,
    through any sequence of updates (with the [switch_provider] calls they
    make), ticks, renders and task executions, [_provider] is never
    [AUTOMATIC]: it is [INVALID] or a concrete backend. *)
Theorem active_provider_never_automatic io f rt ui0 dirty0 d evs
  (Hctor : fst (denoising_factory_ctor io) = Returns f)
  (Hregistered : registered f = true)
  (Hhost : forallb is_host_event evs = true) :
  _provider
    (inst (run (Some f) evs
             (denoising_instance_ctor (Some f) rt ui0 dirty0 d)))
  <> AUTOMATIC
  /\ (_provider
        (inst (run (Some f) evs
                 (denoising_instance_ctor (Some f) rt ui0 dirty0 d)))
      = INVALID
      \/ _provider
           (inst (run (Some f) evs
                    (denoising_instance_ctor (Some f) rt ui0 dirty0 d)))
         = NVIDIA_DENOISING).
Proof.
  pose proof (registered_factory_has_provider io f Hctor Hregistered)
    as Havail.
  pose proof (available_provider_never_automatic f rt ui0 dirty0 d evs
                Havail Hhost) as H.
  split; [exact H|].
  destruct (_provider
              (inst (run (Some f) evs
                       (denoising_instance_ctor (Some f) rt ui0 dirty0 d))));
    first [ left; reflexivity | right; reflexivity
          | exfalso; apply H; reflexivity ].
Qed.

(** *** Automatic with no provider available *)







(** ** Further properties of the code *)

(** *** The pool holds at most one pending switch *)

Lemma filter_other_handles_nil h (l : list task) :
  (forall t, In t l -> handle t = h) ->
  filter (fun t => negb (Nat.eqb (handle t) h)) l = [].
Proof.
  induction l as [|t l IH]; intros H; simpl; [reflexivity|].
  rewrite (H t (or_introl eq_refl)), Nat.eqb_refl. simpl.
  apply IH. intros t' Ht'. apply H. right; exact Ht'.
Qed.

Lemma remove_nth_incl {A : Type} k (l : list A) x :
  In x (remove_nth k l) -> In x l.
Proof.
  revert k; induction l as [|y l IH]; intros k H.
  - destruct k; simpl in H; contradiction.
  - destruct k as [|k]; simpl in H.
    + right; exact H.
    + destruct H as [H|H]; [left; exact H | right; eapply IH; exact H].
Qed.

Lemma remove_nth_length {A : Type} k (l : list A) :
  List.length (remove_nth k l) <= List.length l.
Proof.
  revert k; induction l as [|y l IH]; intros k.
  - destruct k; simpl; lia.
  - destruct k as [|k]; simpl; [lia|]. specialize (IH k). lia.
Qed.

Lemma switch_provider_pending p s tp :
  pending_ok s tp ->
  pending_ok (fst (fst (switch_provider p s tp)))
             (snd (fst (switch_provider p s tp))).
Proof.
  intros [Hlen Hq]. unfold switch_provider.
  destruct (provider_eqb p (_provider s)); simpl; [split; assumption|].
  assert (E : queue (match _provider_task s with
                     | Some h => pop tp h
                     | None => tp
                     end) = []).
  { destruct (_provider_task s) as [h|] eqn:Et; simpl.
    - apply filter_other_handles_nil. intros t Ht.
      specialize (Hq t Ht). congruence.
    - destruct (queue tp) as [|t q]; [reflexivity|].
      specialize (Hq t (or_introl eq_refl)). discriminate. }
  unfold pending_ok, push. simpl. rewrite E. simpl.
  split; [lia|].
  intros t [<-|[]]. simpl.
  destruct (_provider_task s); reflexivity.
Qed.

Lemma nvvfx_denoising_update_keeps_task d s :
  _provider_task (fst (nvvfx_denoising_update d s)) = _provider_task s.
Proof. unfold nvvfx_denoising_update. destruct (_nvidia_fx s); reflexivity. Qed.

Lemma update_pending g d s tp :
  pending_ok s tp ->
  pending_ok (fst (fst (fst (update g d s tp))))
             (snd (fst (fst (update g d s tp)))).
Proof.
  intros H.
  assert (K : forall q : denoising_provider,
    pending_ok
      (fst (fst (fst
         (let '(s1, tp1, tr1) :=
            if negb (provider_eqb q (_provider s))
            then switch_provider q (set_provider_ui q s) tp
            else (s, tp, []) in
          let '(s2, tr2) :=
            if _provider_ready s1 then
              match _provider s1 with
              | NVIDIA_DENOISING =>
                  if ENABLE_FILTER_DENOISING_NVIDIA
                  then nvvfx_denoising_update d s1 else (s1, [])
              | _ => (s1, [])
              end
            else (s1, []) in
          (s2, tp1, tr1 ++ tr2, Normal)))))
      (snd (fst (fst
         (let '(s1, tp1, tr1) :=
            if negb (provider_eqb q (_provider s))
            then switch_provider q (set_provider_ui q s) tp
            else (s, tp, []) in
          let '(s2, tr2) :=
            if _provider_ready s1 then
              match _provider s1 with
              | NVIDIA_DENOISING =>
                  if ENABLE_FILTER_DENOISING_NVIDIA
                  then nvvfx_denoising_update d s1 else (s1, [])
              | _ => (s1, [])
              end
            else (s1, []) in
          (s2, tp1, tr1 ++ tr2, Normal)))))).
  { intros q.
    assert (H1 : pending_ok
                   (fst (fst (if negb (provider_eqb q (_provider s))
                              then switch_provider q (set_provider_ui q s) tp
                              else (s, tp, []))))
                   (snd (fst (if negb (provider_eqb q (_provider s))
                              then switch_provider q (set_provider_ui q s) tp
                              else (s, tp, []))))).
    { destruct (negb (provider_eqb q (_provider s))); [|exact H].
      apply switch_provider_pending. exact H. }
    destruct (if negb (provider_eqb q (_provider s))
              then switch_provider q (set_provider_ui q s) tp
              else (s, tp, [])) as [[s1 tp1] tr1].
    simpl in H1.
    assert (H2 : _provider_task
                   (fst (if _provider_ready s1 then
                           match _provider s1 with
                           | NVIDIA_DENOISING =>
                               if ENABLE_FILTER_DENOISING_NVIDIA
                               then nvvfx_denoising_update d s1 else (s1, [])
                           | _ => (s1, [])
                           end
                         else (s1, [])))
                 = _provider_task s1).
    { destruct (_provider_ready s1), (_provider s1),
        ENABLE_FILTER_DENOISING_NVIDIA; simpl; try reflexivity.
      apply nvvfx_denoising_update_keeps_task. }
    destruct (if _provider_ready s1 then
                match _provider s1 with
                | NVIDIA_DENOISING =>
                    if ENABLE_FILTER_DENOISING_NVIDIA
                    then nvvfx_denoising_update d s1 else (s1, [])
                | _ => (s1, [])
                end
              else (s1, [])) as [s2 tr2].
    simpl in *. destruct H1 as [Hl Hq]. split; [exact Hl|].
    intros t Ht. rewrite H2. apply Hq. exact Ht. }
  unfold update, get.
  destruct (data_provider d) as [[| |]|z];
    [apply K | | apply K | exact H].
  destruct g as [f|]; [apply K | exact H].
Qed.

(** Case analysis over everything [video_render] looks at, closing each
    case with [tac] as soon as it applies. *)
Ltac render_enum s io tac :=
  destruct s as [sz rdy p ui tk [inp] out d fx];
  destruct io as [par tgt fsz b1 p1 b2 p2];
  break_render;
  destruct rdy; simpl in *; try solve [tac];
  destruct tgt as [[w h]|], par as [[pw ph]|]; simpl in *; try solve [tac];
  destruct (N.eqb w 0) eqn:Ew; simpl in *; try solve [tac];
  destruct (N.eqb h 0) eqn:Eh; simpl in *; try solve [tac];
  destruct d; simpl in *; try solve [tac];
  destruct p; simpl in *; try solve [tac];
  destruct ENABLE_FILTER_DENOISING_NVIDIA; simpl in *; try solve [tac];
  destruct fx as [fx|]; simpl in *; try solve [tac];
  destruct b1; simpl in *; try solve [tac];
  destruct p1 as [[t1|]|e1]; simpl in *; try solve [tac];
  destruct inp as [ti|]; simpl in *; try solve [tac];
  destruct b2; simpl in *; try solve [tac];
  destruct p2 as [[t2|]|e2]; simpl in *; try solve [tac];
  destruct out as [to|]; simpl in *; try solve [tac].

Lemma video_render_frame io s :
  _provider_ready (state_of (video_render io s)) = _provider_ready s
  /\ _provider_ui (state_of (video_render io s)) = _provider_ui s
  /\ _provider_task (state_of (video_render io s)) = _provider_task s
  /\ _nvidia_fx (state_of (video_render io s)) = _nvidia_fx s
  /\ _input (state_of (video_render io s)) = _input s.
Proof. render_enum s io ltac:(repeat split; reflexivity). Qed.

Lemma video_tick_frame io s :
  _provider_ready (fst (video_tick io s)) = _provider_ready s
  /\ _provider_ui (fst (video_tick io s)) = _provider_ui s
  /\ _provider_task (fst (video_tick io s)) = _provider_task s
  /\ _nvidia_fx (fst (video_tick io s)) = _nvidia_fx s
  /\ _input (fst (video_tick io s)) = _input s
  /\ _output (fst (video_tick io s)) = _output s.
Proof.
  destruct s as [sz rdy p ui tk inp out d fx].
  destruct io as [par tgt fsz b1 p1 b2 p2].
  unfold video_tick, nvvfx_denoising_size; simpl.
  destruct tgt, rdy, p, ENABLE_FILTER_DENOISING_NVIDIA, fx;
    repeat split; reflexivity.
Qed.

Lemma task_switch_provider_locked_frame spd io s :
  _provider_ui (state_of (task_switch_provider_locked spd io s))
  = _provider_ui s
  /\ _provider_task (state_of (task_switch_provider_locked spd io s))
     = _provider_task s
  /\ _size (state_of (task_switch_provider_locked spd io s)) = _size s
  /\ _output (state_of (task_switch_provider_locked spd io s)) = _output s
  /\ _input (state_of (task_switch_provider_locked spd io s)) = _input s.
Proof. task_cases s spd io; repeat split; reflexivity. Qed.

Lemma step_pending g e w :
  pending_ok (inst w) (pool w) ->
  pending_ok (inst (step g e w)) (pool (step g e w)).
Proof.
  intros H. destruct e as [d|p|io|io|k|k io]; simpl.
  - pose proof (update_pending g d (inst w) (pool w) H) as K.
    destruct (update g d (inst w) (pool w)) as [[[s tp] tr] c]. exact K.
  - pose proof (switch_provider_pending p (inst w) (pool w) H) as K.
    destruct (switch_provider p (inst w) (pool w)) as [[s tp] tr]. exact K.
  - pose proof (video_tick_frame io (inst w)) as (_ & _ & K & _).
    destruct (video_tick io (inst w)) as [s tr]. simpl in *.
    destruct H as [Hl Hq]. split; [exact Hl|]. intros t Ht. rewrite K. auto.
  - pose proof (video_render_frame io (inst w)) as (_ & _ & K & _).
    destruct (video_render io (inst w)) as [[s tr] c].
    unfold state_of in K. simpl in *.
    destruct H as [Hl Hq]. split; [exact Hl|]. intros t Ht. rewrite K. auto.
  - destruct (nth_error (queue (pool w)) k) as [t0|]; [|exact H]. simpl.
    destruct H as [Hl Hq]. split.
    + simpl. pose proof (remove_nth_length k (queue (pool w))). lia.
    + simpl. intros t Ht. apply Hq. eapply remove_nth_incl. exact Ht.
  - destruct (nth_error (started (pool w)) k) as [t0|]; [|exact H].
    pose proof (task_switch_provider_locked_frame (data t0) io (inst w))
      as (_ & K & _).
    destruct (task_switch_provider_locked (data t0) io (inst w))
      as [[s tr] c].
    unfold state_of in K. simpl in *.
    destruct H as [Hl Hq]. split; [exact Hl|]. intros t Ht. rewrite K. auto.
Qed.

Lemma denoising_instance_ctor_pending g rt ui0 dirty0 d :
  pending_ok (inst (denoising_instance_ctor g rt ui0 dirty0 d))
             (pool (denoising_instance_ctor g rt ui0 dirty0 d)).
Proof.
  unfold denoising_instance_ctor.
  assert (H0 : pending_ok (denoising_instance_init rt ui0 dirty0)
                 threadpool_init).
  { split; simpl; [lia | intros t []]. }
  destruct d as [d|]; [|exact H0].
  apply (step_pending g (EvUpdate d)
           {| inst := denoising_instance_init rt ui0 dirty0;
              pool := threadpool_init;
              effects := [input_render 1 1] |}).
  exact H0.
Qed.

(** X1: whatever happens to an instance after its construction (updates,
    direct switches, ticks, renders, task starts and task bodies), the pool
    never holds more than one queued switch task for it, and a queued task
    is always the one whose handle [_provider_task] holds. *)
Theorem at_most_one_pending_switch g rt ui0 dirty0 d evs :
  pending_ok
    (inst (run g evs (denoising_instance_ctor g rt ui0 dirty0 d)))
    (pool (run g evs (denoising_instance_ctor g rt ui0 dirty0 d))).
Proof.
  pose proof (denoising_instance_ctor_pending g rt ui0 dirty0 d) as H.
  revert H. generalize (denoising_instance_ctor g rt ui0 dirty0 d).
  induction evs as [|e evs IH]; intros w H; simpl; [exact H|].
  apply IH. apply step_pending. exact H.
Qed.

(** X2: two switches in a row, with no task started in between, leave
    exactly one queued task, the second one; the first is dequeued before it
    ever runs.  The queued task vacates the identity of the first switch, and
    [_provider] is the identity of the second. *)
Theorem back_to_back_switch_supersedes g rt ui0 dirty0 d evs a b
  (Ha : a <> _provider
               (inst (run g evs (denoising_instance_ctor g rt ui0 dirty0 d))))
  (Hb : b <> a) :
  queue (pool (run g [EvSwitchProvider a; EvSwitchProvider b]
                 (run g evs (denoising_instance_ctor g rt ui0 dirty0 d))))
  = [{| handle :=
          S (next_handle
               (pool (run g evs
                        (denoising_instance_ctor g rt ui0 dirty0 d))));
        data := {| provider := a |} |}]
  /\ _provider
       (inst (run g [EvSwitchProvider a; EvSwitchProvider b]
                (run g evs (denoising_instance_ctor g rt ui0 dirty0 d))))
     = b
  /\ started
       (pool (run g [EvSwitchProvider a; EvSwitchProvider b]
                (run g evs (denoising_instance_ctor g rt ui0 dirty0 d))))
     = started
         (pool (run g evs (denoising_instance_ctor g rt ui0 dirty0 d))).
Proof.
  pose proof (at_most_one_pending_switch g rt ui0 dirty0 d evs) as [Hl Hq].
  revert Ha Hl Hq.
  generalize (run g evs (denoising_instance_ctor g rt ui0 dirty0 d)).
  intros [s tp ef] Ha Hl Hq. simpl in *.
  unfold switch_provider.
  apply provider_eqb_neq in Ha. rewrite Ha. simpl.
  apply provider_eqb_neq in Hb. rewrite Hb. simpl.
  assert (E : queue (match _provider_task s with
                     | Some h => pop tp h
                     | None => tp
                     end) = []
               /\ next_handle (match _provider_task s with
                               | Some h => pop tp h
                               | None => tp
                               end) = next_handle tp
               /\ started (match _provider_task s with
                           | Some h => pop tp h
                           | None => tp
                           end) = started tp).
  { destruct (_provider_task s) as [h|] eqn:Et; simpl.
    - rewrite (filter_other_handles_nil h); [auto|].
      intros t Ht. specialize (Hq t Ht). congruence.
    - destruct (queue tp) as [|t q]; [auto|].
      specialize (Hq t (or_introl eq_refl)). discriminate. }
  destruct E as (E1 & E2 & E3). rewrite E1, E2, E3. simpl.
  rewrite Nat.eqb_refl. simpl. repeat split; reflexivity.
Qed.

(** *** update *)

(** Case analysis over everything [update] looks at, from an equation [E]
    that names its result. *)
Ltac update_enum E s d g :=
  unfold update, get, switch_provider, nvvfx_denoising_update, push, pop in *;
  destruct s as [sz rdy p ui tk inp out dd fx];
  destruct d as [dp ds]; simpl in *;
  destruct dp as [[| |]|code], g as [f|]; simpl in *;
  try match type of E with
      | context [find_ideal_provider ?f] =>
          destruct (find_ideal_provider f) eqn:Ef; simpl in *
      end;
  destruct p, rdy, ENABLE_FILTER_DENOISING_NVIDIA, fx as [fx|], tk as [tk|];
  simpl in *; inversion E; subst; clear E; simpl in *.

(** X3: an update repeated with the same settings switches nothing: the
    pool, [_provider] and the task handle stay as the first update left
    them, and nothing is logged. *)
Theorem update_twice_switches_once g d s tp :
  snd (fst (fst (update g d (fst (fst (fst (update g d s tp))))
                              (snd (fst (fst (update g d s tp)))))))
  = snd (fst (fst (update g d s tp)))
  /\ _provider
       (fst (fst (fst (update g d (fst (fst (fst (update g d s tp))))
                                   (snd (fst (fst (update g d s tp))))))))
     = _provider (fst (fst (fst (update g d s tp))))
  /\ _provider_task
       (fst (fst (fst (update g d (fst (fst (fst (update g d s tp))))
                                   (snd (fst (fst (update g d s tp))))))))
     = _provider_task (fst (fst (fst (update g d s tp))))
  /\ filter is_log
       (snd (fst (update g d (fst (fst (fst (update g d s tp))))
                              (snd (fst (fst (update g d s tp)))))))
     = [].
Proof.
  destruct (update g d s tp) as [[[s1 tp1] tr1] c1] eqn:E1. simpl.
  destruct (update g d s1 tp1) as [[[s2 tp2] tr2] c2] eqn:E2. simpl.
  update_enum E1 s d g;
    inversion E2; subst; repeat split; reflexivity.
Qed.

Lemma update_frame g d s tp :
  (_provider_ready (fst (fst (fst (update g d s tp)))) = _provider_ready s
   /\ _size (fst (fst (fst (update g d s tp)))) = _size s
   /\ _input (fst (fst (fst (update g d s tp)))) = _input s
   /\ _output (fst (fst (fst (update g d s tp)))) = _output s
   /\ _dirty (fst (fst (fst (update g d s tp)))) = _dirty s)
  /\ (_provider_ready s = false ->
      filter is_provider_call (snd (fst (update g d s tp))) = []
      /\ _nvidia_fx (fst (fst (fst (update g d s tp)))) = _nvidia_fx s).
Proof.
  destruct (update g d s tp) as [[[s1 tp1] tr1] c1] eqn:E1. simpl.
  update_enum E1 s d g;
    (split; [repeat split; reflexivity
            | intros H; try discriminate H; split; reflexivity]).
Qed.

(** X4: [update] never touches the readiness flag, the size, the input and
    output textures or the dirty flag; and while the provider is not ready it
    makes no backend call and leaves the backend object as it is. *)
Theorem update_leaves_frame_and_waits_for_ready g d s tp :
  (_provider_ready (fst (fst (fst (update g d s tp)))) = _provider_ready s
   /\ _size (fst (fst (fst (update g d s tp)))) = _size s
   /\ _input (fst (fst (fst (update g d s tp)))) = _input s
   /\ _output (fst (fst (fst (update g d s tp)))) = _output s
   /\ _dirty (fst (fst (fst (update g d s tp)))) = _dirty s)
  /\ (_provider_ready s = false ->
      filter is_provider_call (snd (fst (update g d s tp))) = []
      /\ _nvidia_fx (fst (fst (fst (update g d s tp)))) = _nvidia_fx s).
Proof. exact (update_frame g d s tp). Qed.

(** X5: the only strengths [update] ever hands to the backend are 0 and 1:
    0 when the setting is 0, 1 for every other value.  It does so only when
    the provider is ready, and the backend object then carries that
    strength. *)
Theorem update_strength_is_weak_or_strong g d s tp z
  (Hset : In (nvidia_fx_set_strength z) (snd (fst (update g d s tp)))) :
  (z = 0%Z \/ z = 1%Z)
  /\ (z = 0%Z <-> data_nvidia_denoising_strength d = 0%Z)
  /\ _provider_ready s = true
  /\ _nvidia_fx (fst (fst (fst (update g d s tp))))
     = Some {| strength := z |}.
Proof.
  destruct (update g d s tp) as [[[s1 tp1] tr1] c1] eqn:E1. simpl in *.
  update_enum E1 s d g;
    repeat match goal with
           | H : _ \/ _ |- _ => destruct H
           | H : False |- _ => contradiction
           | H : D_LOG _ _ = _ |- _ => discriminate H
           | H : D_LOG_INFO _ = _ |- _ => discriminate H
           end;
    match goal with
    | H : nvidia_fx_set_strength _ = nvidia_fx_set_strength _ |- _ =>
        injection H as <-
    end;
    destruct (Z.eqb_spec ds 0);
    repeat split; auto; try congruence; try (intros; discriminate).
Qed.

(** *** The property sheet *)

Lemma nvidia_denoising_group_shown_iff (data : option denoising_instance) :
  In nvidia_denoising_group (get_properties2 data)
  <-> ENABLE_FILTER_DENOISING_NVIDIA = true
      /\ exists s, data = Some s /\ _provider_ui s = NVIDIA_DENOISING.
Proof.
  unfold get_properties2, properties, nvvfx_denoising_properties,
    advanced_group, nvidia_denoising_group.
  destruct ENABLE_FRONTEND, data as [s|]; simpl;
    try destruct (_provider_ui s) as [[| |]|code] eqn:Eu;
    try destruct ENABLE_FILTER_DENOISING_NVIDIA; simpl;
    (split;
     [ intros H;
       repeat (destruct H as [H|H]; try discriminate H);
       try contradiction;
       (split; [reflexivity | eexists; split; [reflexivity | assumption]])
     | intros [Hf (s' & Hs & Hu)]; try discriminate Hf; try discriminate Hs;
       inversion Hs; subst; try congruence; auto ]).
Qed.

(** X6: every property sheet ends with the advanced group, whose provider
    selector offers Automatic and NVIDIA Denoising and nothing else,
    whatever the build and whatever is available; the NVIDIA settings group
    is on the sheet exactly when the build has NVIDIA and the sheet is made
    for an instance whose [_provider_ui] is [NVIDIA_DENOISING]. *)
Theorem get_properties2_contents (data : option denoising_instance) :
  (exists pre, get_properties2 data = pre ++ [advanced_group]
               /\ ~ In advanced_group pre)
  /\ (In nvidia_denoising_group (get_properties2 data)
      <-> ENABLE_FILTER_DENOISING_NVIDIA = true
          /\ exists s, data = Some s /\ _provider_ui s = NVIDIA_DENOISING).
Proof.
  split; [|apply nvidia_denoising_group_shown_iff].
  unfold get_properties2, properties, nvvfx_denoising_properties,
    advanced_group, nvidia_denoising_group.
  eexists. split; [reflexivity|].
  destruct ENABLE_FRONTEND, data as [s|]; simpl;
    try destruct (_provider_ui s) as [[| |]|code];
    try destruct ENABLE_FILTER_DENOISING_NVIDIA; simpl;
    intros H;
    repeat (destruct H as [H|H]; try discriminate H); contradiction.
Qed.

Lemma update_ui_follows g d s tp :
  is_enumerator (data_provider d) = true ->
  ui_follows_active s ->
  ui_follows_active (fst (fst (fst (update g d s tp)))).
Proof.
  intros Hd H.
  destruct (update g d s tp) as [[[s1 tp1] tr1] c1] eqn:E1. simpl.
  unfold ui_follows_active in *.
  update_enum E1 s d g; try discriminate Hd; intuition congruence.
Qed.

Lemma step_ui_follows g e w :
  is_host_event e = true ->
  requests_enumerator e = true ->
  ui_follows_active (inst w) ->
  ui_follows_active (inst (step g e w)).
Proof.
  intros He Hr H. unfold ui_follows_active in *.
  destruct e as [d|p|io|io|k|k io]; try discriminate He; simpl.
  - pose proof (update_ui_follows g d (inst w) (pool w) Hr H) as K.
    destruct (update g d (inst w) (pool w)) as [[[s tp] tr] c]. exact K.
  - pose proof (video_tick_frame io (inst w)) as (_ & K & _).
    pose proof (video_tick_keeps_provider io (inst w)) as K'.
    destruct (video_tick io (inst w)) as [s tr]. simpl in *.
    rewrite K, K'. exact H.
  - pose proof (video_render_frame io (inst w)) as (_ & K & _).
    pose proof (video_render_keeps_provider io (inst w)) as K'.
    destruct (video_render io (inst w)) as [[s tr] c].
    unfold state_of in *. simpl in *. rewrite K, K'. exact H.
  - destruct (nth_error (queue (pool w)) k); simpl; exact H.
  - destruct (nth_error (started (pool w)) k) as [t0|]; [|exact H].
    pose proof (task_switch_provider_locked_frame (data t0) io (inst w))
      as (K & _).
    pose proof (task_switch_provider_locked_keeps_provider (data t0) io
                  (inst w)) as K'.
    destruct (task_switch_provider_locked (data t0) io (inst w))
      as [[s tr] c].
    unfold state_of in *. simpl in *. rewrite K, K'. exact H.
Qed.

(** What [update] does with a stored integer that is no enumerator. *)
Lemma update_no_enumerator g d s tp z :
  data_provider d = no_enumerator z ->
  update g d s tp
  = (set_provider_ui (no_enumerator z) s, tp, [],
     Escaped (std_exception "Missing Conversion Entry")).
Proof. intros H. unfold update. rewrite H. reflexivity. Qed.

(** X7: as long as the settings hold an enumerator as the provider, from
    the construction on, between the calls of updates, ticks, renders and
    task steps, once the instance has left [INVALID] its [_provider_ui]
    equals its [_provider]; so while NVIDIA is the active provider of an
    NVIDIA build, the sheet made for the instance carries the NVIDIA
    settings group.  An update whose stored provider is no enumerator ends
    this: [switch_provider] throws on it, [_provider_ui] keeps the value,
    [_provider] and the pool stay as they were, and the sheet made for the
    instance has no NVIDIA settings group. *)
Theorem properties_follow_active_provider g rt ui0 dirty0 d evs
  (Hhost : forallb is_host_event evs = true)
  (Hd : forall d', d = Some d' -> is_enumerator (data_provider d') = true)
  (Hreq : forallb requests_enumerator evs = true) :
  ui_follows_active
    (inst (run g evs (denoising_instance_ctor g rt ui0 dirty0 d)))
  /\ (ENABLE_FILTER_DENOISING_NVIDIA = true ->
      _provider (inst (run g evs (denoising_instance_ctor g rt ui0 dirty0 d)))
      = NVIDIA_DENOISING ->
      In nvidia_denoising_group
        (get_properties2
           (Some (inst (run g evs
                          (denoising_instance_ctor g rt ui0 dirty0 d))))))
  /\ (forall d0 s tp z,
        data_provider d0 = no_enumerator z ->
        snd (update g d0 s tp)
        = Escaped (std_exception "Missing Conversion Entry")
        /\ _provider_ui (fst (fst (fst (update g d0 s tp))))
           = no_enumerator z
        /\ _provider (fst (fst (fst (update g d0 s tp)))) = _provider s
        /\ snd (fst (fst (update g d0 s tp))) = tp
        /\ ~ In nvidia_denoising_group
               (get_properties2
                  (Some (fst (fst (fst (update g d0 s tp))))))).
Proof.
  assert (H : ui_follows_active
                (inst (run g evs (denoising_instance_ctor g rt ui0 dirty0 d)))).
  { assert (H0 : ui_follows_active
                   (inst (denoising_instance_ctor g rt ui0 dirty0 d))).
    { unfold denoising_instance_ctor. destruct d as [d|].
      - apply step_ui_follows; [reflexivity | | left; reflexivity].
        simpl. apply Hd. reflexivity.
      - left; reflexivity. }
    clear Hd. revert H0.
    generalize (denoising_instance_ctor g rt ui0 dirty0 d).
    induction evs as [|e evs IH]; intros w Hw; simpl in *; [exact Hw|].
    apply andb_prop in Hhost. destruct Hhost as [He Hevs].
    apply andb_prop in Hreq. destruct Hreq as [Hr Hrs].
    apply IH; [exact Hevs | exact Hrs |]. apply step_ui_follows; assumption. }
  split; [exact H|]. split.
  - intros Hf Hp.
    apply nvidia_denoising_group_shown_iff. split; [exact Hf|].
    eexists. split; [reflexivity|].
    destruct H as [H|H]; congruence.
  - intros d0 s tp z Hz.
    rewrite (update_no_enumerator g d0 s tp z Hz). simpl.
    repeat split.
    intros Hin. apply nvidia_denoising_group_shown_iff in Hin.
    destruct Hin as [_ (s' & Hs & Hu)].
    inversion Hs; subst. simpl in Hu. discriminate Hu.
Qed.

(** *** The factory *)

(** X8: the factory constructor contains a failed probe: it throws only when
    the registration with the host throws, which it reaches only after a
    successful probe.  The factory it returns is registered exactly when
    NVIDIA is available, which is exactly when the build has NVIDIA and the
    libraries loaded; otherwise the one error line says that every provider
    failed. *)
Theorem denoising_factory_ctor_outcome (io : init_io) :
  match fst (denoising_factory_ctor io) with
  | Returns f =>
      registered f = _nvidia_available f
      /\ (_nvidia_available f = true
          <-> ENABLE_FILTER_DENOISING_NVIDIA = true
              /\ exists u, nvidia_get io = Returns u)
      /\ filter is_error_line (snd (denoising_factory_ctor io))
         = (if _nvidia_available f then []
            else [D_LOG_ERROR msg_all_providers_failed])
  | Throws e =>
      finish_setup io = Throws e
      /\ ENABLE_FILTER_DENOISING_NVIDIA = true
      /\ exists u, nvidia_get io = Returns u
  end.
Proof.
  unfold denoising_factory_ctor.
  destruct io as [ms [u|[w|]] [u'|e']]; simpl;
    destruct ENABLE_FILTER_DENOISING_NVIDIA; simpl;
    repeat split; eauto;
    try (intros; discriminate);
    try (intros [Hf [u0 Hu]]; discriminate).
Qed.

(** X9: a first [initialize()] leaves the handle null exactly when the
    allocation throws or the registration throws after a successful probe,
    and exactly then it logs that it failed to initialize.  A failed probe
    alone still yields a factory. *)
Theorem initialize_fails_iff (io : init_io) :
  (get (fst (initialize io None)) = None
   <-> (exists e, make_shared_factory io = Throws e)
       \/ (ENABLE_FILTER_DENOISING_NVIDIA = true
           /\ (exists u, nvidia_get io = Returns u)
           /\ exists e, finish_setup io = Throws e))
  /\ ((exists w, In (D_LOG_ERROR (msg_failed_initialize w))
                   (snd (initialize io None)))
      <-> get (fst (initialize io None)) = None).
Proof.
  unfold initialize, denoising_factory_ctor, get.
  destruct io as [[u0|[w0|]] [u|[w|]] [u'|[w'|]]]; simpl;
    destruct ENABLE_FILTER_DENOISING_NVIDIA; simpl;
    (split; split;
     [ intros H; try discriminate H; eauto 8
     | intros [[e He] | (Hf & [u1 Hu] & [e He])];
       try discriminate; reflexivity
     | intros [x H];
       repeat (destruct H as [H|H]; try discriminate H);
       try contradiction; reflexivity
     | intros H; try discriminate H; eexists; simpl; eauto 6 ]).
Qed.

(** *** The switch task, end to end *)


(** X11: on an NVIDIA build whose factory has NVIDIA available, an instance
    constructed with settings that ask for Automatic or for NVIDIA queues one
    switch task; when that task starts and its load succeeds, the instance is
    ready on [NVIDIA_DENOISING] with the loaded backend, its UI provider is
    NVIDIA as well, the pool is empty and no error was logged.  Until the
    task is done the instance is not ready. *)
Theorem construction_switches_to_nvidia f rt ui0 dirty0 d fx dd
  (Hflag : ENABLE_FILTER_DENOISING_NVIDIA = true)
  (Havail : _nvidia_available f = true)
  (Hreq : data_provider d = AUTOMATIC
          \/ data_provider d = NVIDIA_DENOISING) :
  let w0 := denoising_instance_ctor (Some f) rt ui0 dirty0 (Some d) in
  let w := run (Some f)
             [EvTaskStart 0;
              EvTaskBody 0 {| make_shared_denoising := Returns fx;
                              destroy_denoising := dd |}] w0 in
  (_provider_ready (inst w0) = false
   /\ _provider (inst w0) = NVIDIA_DENOISING
   /\ queue (pool w0)
      = [{| handle := 0; data := {| provider := INVALID |} |}])
  /\ _provider_ready (inst w) = true
  /\ _provider (inst w) = NVIDIA_DENOISING
  /\ _provider_ui (inst w) = NVIDIA_DENOISING
  /\ _nvidia_fx (inst w) = Some fx
  /\ queue (pool w) = []
  /\ started (pool w) = []
  /\ filter is_error_line (effects w) = [].
Proof.
  assert (Hfind : find_ideal_provider f = NVIDIA_DENOISING).
  { unfold find_ideal_provider. simpl. rewrite Hflag, Havail. reflexivity. }
  destruct d as [dp ds]. simpl in Hreq.
  unfold denoising_instance_ctor, denoising_instance_init. simpl.
  unfold update, get, switch_provider, nvvfx_denoising_update, push, pop.
  simpl.
  destruct Hreq as [-> | ->]; simpl; rewrite ?Hfind; simpl;
    unfold task_switch_provider_locked, task_switch_provider_try, task_catch,
      task_switch_provider_mark, nvvfx_denoising_load; simpl;
    rewrite Hflag; simpl;
    repeat split; reflexivity.
Qed.

(** *** video_render, as a whole *)

(** X12: a render that returns normally hands the host exactly one result,
    a skip or a draw, never both and never neither; a render that ends with
    an escaped exception or a null dereference hands over nothing. *)
Theorem video_render_one_result io s :
  List.length (filter is_skip (trace_of (video_render io s)))
  + List.length (filter is_draw (trace_of (video_render io s)))
  = match completion_of (video_render io s) with
    | Normal => 1
    | _ => 0
    end.
Proof. render_enum s io ltac:(reflexivity). Qed.

(** X13: one render asks the host for a capture at most twice and calls the
    backend's process at most twice, and it leaves the readiness flag, the UI
    provider, the task handle, the backend object and the input target as
    they were. *)
Theorem video_render_bounded_and_framed io s :
  List.length (filter is_capture_begin (trace_of (video_render io s))) <= 2
  /\ List.length (filter is_fx_process (trace_of (video_render io s))) <= 2
  /\ _provider_ready (state_of (video_render io s)) = _provider_ready s
  /\ _provider_ui (state_of (video_render io s)) = _provider_ui s
  /\ _provider_task (state_of (video_render io s)) = _provider_task s
  /\ _nvidia_fx (state_of (video_render io s)) = _nvidia_fx s
  /\ _input (state_of (video_render io s)) = _input s.
Proof.
  render_enum s io ltac:(repeat split; try reflexivity; simpl; lia).
Qed.

(** X14: of the two process calls of [video_render] only the second is in a
    try block.  On an NVIDIA build with the backend loaded, a dirty frame
    and a first capture that began (the size call and the capture before
    the process call are taken to return): when the first process call
    throws, what it throws leaves [video_render], which has neither skipped
    nor drawn and leaves the frame dirty; when the first returns an output,
    the second capture begins and the second process call throws, whatever
    it throws is caught, and the render ends normally with one skip, no
    draw, no error line and the frame still dirty. *)
Theorem video_render_process_throws io s e
  (Hguard : render_guard_skips io s = false)
  (Hdirty : _dirty s = true)
  (Hbuild : ENABLE_FILTER_DENOISING_NVIDIA = true)
  (Hprovider : _provider s = NVIDIA_DENOISING)
  (Hbackend : _nvidia_fx s <> None)
  (Hbegin : begin1 io = true) :
  (process1 io = Throws e ->
   completion_of (video_render io s) = Escaped e
   /\ filter is_skip (trace_of (video_render io s)) = []
   /\ filter is_draw (trace_of (video_render io s)) = []
   /\ _dirty (state_of (video_render io s)) = true)
  /\ (forall t,
       process1 io = Returns (Some t) ->
       begin2 io = true ->
       process2 io = Throws e ->
       completion_of (video_render io s) = Normal
       /\ filter is_skip (trace_of (video_render io s))
          = [obs_source_skip_video_filter]
       /\ filter is_draw (trace_of (video_render io s)) = []
       /\ filter is_error_line (trace_of (video_render io s)) = []
       /\ _dirty (state_of (video_render io s)) = true).
Proof.
  revert Hguard Hdirty Hbuild Hprovider Hbackend Hbegin.
  render_enum s io
    ltac:(intros Hguard Hdirty Hbuild Hprovider Hbackend Hbegin;
          first
            [ discriminate
            | congruence
            | split;
              [ intros H1; try discriminate H1; injection H1 as <-;
                repeat split; reflexivity
              | intros t H1 H2 H3; try discriminate;
                repeat split; reflexivity ] ]).
Qed.

Lemma video_render_cached io s t :
  render_guard_skips io s = false ->
  _dirty s = false ->
  _output s = Some t ->
  video_render io s
  = (s, [gs_draw_sprite t (fst (_size s)) (snd (_size s))], Normal).
Proof.
  intros Hg Hd Ho. unfold video_render, render_draw.
  rewrite Hg, Hd. simpl. rewrite Hd, Ho. reflexivity.
Qed.

(** X15: after a render that processed the frame, a further render of the
    same frame (no tick in between) that gets past the guard reuses the
    stored output: it draws that texture and does nothing else, with no
    capture and no backend call, and leaves the instance as it is. *)
Theorem video_render_reuses_output io io' s
  (Hdirty : _dirty s = true)
  (Hdone : _dirty (state_of (video_render io s)) = false)
  (Hguard : render_guard_skips io' (state_of (video_render io s)) = false) :
  exists t,
    _output (state_of (video_render io s)) = Some t
    /\ video_render io' (state_of (video_render io s))
       = (state_of (video_render io s),
          [gs_draw_sprite t
             (fst (_size (state_of (video_render io s))))
             (snd (_size (state_of (video_render io s))))],
          Normal).
Proof.
  destruct (video_render_clears_dirty_only_on_success io s Hdirty Hdone)
    as (_ & _ & _ & _ & _ & t & _ & Ho & _).
  exists t. split; [exact Ho|].
  apply video_render_cached; assumption.
Qed.

(** X16: with NVIDIA selected and ready on an NVIDIA build but no backend
    object (it was never loaded, or a switch is pending), a dirty render
    whose captures begin does not skip: it draws the input target's own
    texture at the size the instance already had, clears [_dirty], logs
    nothing and calls no backend. *)
Theorem video_render_without_backend_draws_input io s t
  (Hflag : ENABLE_FILTER_DENOISING_NVIDIA = true)
  (Hp : _provider s = NVIDIA_DENOISING)
  (Hfx : _nvidia_fx s = None)
  (Hin : get_texture (_input s) = Some t)
  (Hguard : render_guard_skips io s = false)
  (Hdirty : _dirty s = true)
  (Hb1 : begin1 io = true)
  (Hb2 : begin2 io = true) :
  video_render io s
  = (set_dirty false (set_output (Some t) s),
     [obs_source_process_filter_begin true;
      input_render (obs_source_get_base_width (obs_filter_get_target io))
                   (obs_source_get_base_height (obs_filter_get_target io));
      obs_source_process_filter_end
        (obs_source_get_base_width (obs_filter_get_target io))
        (obs_source_get_base_height (obs_filter_get_target io));
      obs_source_process_filter_begin true;
      input_render (fst (_size s)) (snd (_size s));
      obs_source_process_filter_end 1 1;
      gs_draw_sprite t (fst (_size s)) (snd (_size s))],
     Normal).
Proof.
  destruct s as [sz rdy p ui tk [inp] out d fx].
  destruct io as [par tgt fsz b1 p1 b2 p2].
  simpl in *. subst p fx inp d b1 b2.
  unfold video_render. rewrite Hguard.
  unfold render_block1, render_block2, render_draw, provider_process,
    nvvfx_denoising_process, nvvfx_denoising_size.
  simpl. rewrite Hflag. simpl. reflexivity.
Qed.

(** *** video_tick and the reported size *)

(** X17: a tick stores the target's base size, or what the backend makes of
    it when NVIDIA is ready and loaded on an NVIDIA build and there is a
    target.  The width and height reported outward are never below 1; with
    no target the stored size is 0 by 0, reported as 1 by 1, and the backend
    is not asked. *)
Theorem video_tick_size io s :
  _size (fst (video_tick io s))
  = match obs_filter_get_target io, _provider s, _nvidia_fx s with
    | Some _, NVIDIA_DENOISING, Some _ =>
        if _provider_ready s && ENABLE_FILTER_DENOISING_NVIDIA
        then fx_size io
               (obs_source_get_base_width (obs_filter_get_target io),
                obs_source_get_base_height (obs_filter_get_target io))
        else (obs_source_get_base_width (obs_filter_get_target io),
              obs_source_get_base_height (obs_filter_get_target io))
    | _, _, _ =>
        (obs_source_get_base_width (obs_filter_get_target io),
         obs_source_get_base_height (obs_filter_get_target io))
    end
  /\ (1 <= get_width (fst (video_tick io s)))%N
  /\ (1 <= get_height (fst (video_tick io s)))%N
  /\ (obs_filter_get_target io = None ->
      _size (fst (video_tick io s)) = (0%N, 0%N)
      /\ get_width (fst (video_tick io s)) = 1%N
      /\ get_height (fst (video_tick io s)) = 1%N
      /\ snd (video_tick io s) = []).
Proof.
  split; [|split; [apply N.le_max_r | split; [apply N.le_max_r|]]].
  - destruct s as [sz rdy p ui tk inp out d fx].
    destruct io as [par tgt fsz b1 p1 b2 p2].
    unfold video_tick, nvvfx_denoising_size; simpl.
    destruct tgt, rdy, p, ENABLE_FILTER_DENOISING_NVIDIA, fx; reflexivity.
  - intros Ht. unfold video_tick, get_width, get_height. rewrite Ht. simpl.
    repeat split; reflexivity.
Qed.

(** X18: on an NVIDIA build with NVIDIA ready and loaded, a tick followed by
    a render that processes the frame asks the backend for its size twice,
    once in the tick and once more in the render, so the sprite is drawn at
    the backend's size of the backend's size of the target, and the second
    capture is taken at that size. *)
Theorem tick_then_render_restricts_size_twice io s fx src t1 t2
  (Hflag : ENABLE_FILTER_DENOISING_NVIDIA = true)
  (Hp : _provider s = NVIDIA_DENOISING)
  (Hready : _provider_ready s = true)
  (Hfx : _nvidia_fx s = Some fx)
  (Htarget : obs_filter_get_target io = Some src)
  (Hw : base_width src <> 0%N)
  (Hh : base_height src <> 0%N)
  (Hb1 : begin1 io = true)
  (Hp1 : process1 io = Returns (Some t1))
  (Hb2 : begin2 io = true)
  (Hp2 : process2 io = Returns (Some t2)) :
  _size (state_of (video_render io (fst (video_tick io s))))
  = fx_size io (fx_size io (base_width src, base_height src))
  /\ In (input_render
           (fst (fx_size io (fx_size io (base_width src, base_height src))))
           (snd (fx_size io (fx_size io (base_width src, base_height src)))))
        (trace_of (video_render io (fst (video_tick io s))))
  /\ last (trace_of (video_render io (fst (video_tick io s))))
          obs_source_skip_video_filter
     = gs_draw_sprite t2
         (fst (fx_size io (fx_size io (base_width src, base_height src))))
         (snd (fx_size io (fx_size io (base_width src, base_height src))))
  /\ _dirty (state_of (video_render io (fst (video_tick io s)))) = false.
Proof.
  destruct s as [sz rdy p ui tk [inp] out d fx0].
  destruct io as [par tgt fsz b1 p1 b2 p2].
  destruct src as [w h].
  simpl in *. subst p rdy fx0 tgt b1 p1 b2 p2.
  apply N.eqb_neq in Hw, Hh.
  unfold video_tick, nvvfx_denoising_size. simpl. rewrite Hflag. simpl.
  break_render. rewrite Hw, Hh, Hflag. simpl.
  repeat split; try reflexivity. in_list.
Qed.

(** *** While the provider is not ready *)

Lemma step_not_ready g e w :
  is_task_body e = false ->
  _provider_ready (inst w) = false ->
  _provider_ready (inst (step g e w)) = false
  /\ exists tr,
      effects (step g e w) = effects w ++ tr
      /\ filter is_provider_call tr = []
      /\ filter is_draw tr = [].
Proof.
  intros He Hr.
  destruct e as [d|p|io|io|k|k io]; try discriminate He; simpl.
  - pose proof (update_frame g d (inst w) (pool w)) as [(K & _) K'].
    specialize (K' Hr). destruct K' as [K' _].
    assert (Hd : filter is_draw (snd (fst (update g d (inst w) (pool w))))
                 = []).
    { clear K K'.
      destruct (update g d (inst w) (pool w)) as [[[s1 tp1] tr1] c1] eqn:E1.
      simpl. destruct (inst w) as [sz rdy p0 ui tk inp out dd fx0] eqn:Ei.
      destruct d as [dp ds].
      unfold update, get, switch_provider, nvvfx_denoising_update, push, pop
        in E1. simpl in *. subst rdy.
      destruct dp as [[| |]|z], g as [f|]; simpl in E1;
        try (destruct (find_ideal_provider f); simpl in E1);
        destruct p0; simpl in E1; inversion E1; reflexivity. }
    destruct (update g d (inst w) (pool w)) as [[[s tp] tr] c]. simpl in *.
    split; [congruence|]. exists tr. auto.
  - unfold switch_provider.
    destruct (provider_eqb p (_provider (inst w))); simpl.
    + split; [exact Hr|]. exists []. rewrite app_nil_r. auto.
    + split; [exact Hr|]. eexists. split; [reflexivity|]. auto.
  - unfold video_tick.
    destruct (inst w) as [sz rdy p0 ui tk inp out dd fx0]. simpl in *.
    subst rdy. destruct (obs_filter_get_target io); simpl;
      (split; [reflexivity|]; exists []; rewrite app_nil_r; auto).
  - unfold video_render, render_guard_skips. rewrite Hr. simpl.
    split; [exact Hr|]. eexists. split; [reflexivity|]. auto.
  - destruct (nth_error (queue (pool w)) k); simpl.
    + split; [reflexivity|]. exists []. rewrite app_nil_r. auto.
    + split; [exact Hr|]. exists []. rewrite app_nil_r. auto.
Qed.

(** X20: when the try block of the task lets a [std::exception] out, which
    only loading the new backend can do (a backend destructor that throws
    ends the process instead), the task catches it: it ends normally, its
    one error line carries the exception's text, it does not log that the
    instance switched, [_provider_ready] is false, [_provider] is untouched,
    and the backend object is either gone or the one the instance had
    before. *)
Theorem task_contains_std_exception spd io s w
  (Hfail : completion_of
             (task_switch_provider_try spd io (task_switch_provider_mark s))
           = Escaped (std_exception w)) :
  completion_of (task_switch_provider spd io s) = Normal
  /\ filter is_log (trace_of (task_switch_provider spd io s))
     = [D_LOG_ERROR (msg_failed_switching w)]
  /\ _provider_ready (state_of (task_switch_provider spd io s)) = false
  /\ _provider (state_of (task_switch_provider spd io s)) = _provider s
  /\ (_nvidia_fx (state_of (task_switch_provider spd io s)) = None
      \/ _nvidia_fx (state_of (task_switch_provider spd io s))
         = _nvidia_fx s).
Proof.
  task_cases s spd io; try discriminate;
    inversion Hfail; subst; repeat split; auto.
Qed.

(** *** Interleavings of calls and the switch task *)

Lemma nth_error_last {A : Type} (l : list A) (c : A) :
  nth_error (l ++ [c]) (List.length l) = Some c.
Proof. induction l as [|x l IH]; simpl; auto. Qed.

Lemma nth_error_end {A : Type} (l : list A) :
  nth_error l (List.length l) = None.
Proof. induction l as [|x l IH]; simpl; auto. Qed.

Lemma replace_nth_last {A : Type} (l : list A) (c x : A) :
  replace_nth (List.length l) x (l ++ [c]) = l ++ [x].
Proof. induction l as [|y l IH]; simpl; [reflexivity | now rewrite IH]. Qed.

Lemma remove_nth_last {A : Type} (l : list A) (c : A) :
  remove_nth (List.length l) (l ++ [c]) = l.
Proof. induction l as [|y l IH]; simpl; [reflexivity | now rewrite IH]. Qed.

(** The last call in flight runs its next section. *)
Lemma fine_resume_last g l c w :
  fine_step g (FResume (List.length l)) {| base := w; in_flight := l ++ [c] |}
  = {| base := {| inst := fst (fst (fst (resume c (inst w) (pool w))));
                  pool := snd (fst (fst (resume c (inst w) (pool w))));
                  effects := effects w
                             ++ snd (fst (resume c (inst w) (pool w))) |};
       in_flight := enqueue (snd (resume c (inst w) (pool w))) l |}.
Proof.
  unfold fine_step. simpl. rewrite nth_error_last.
  destruct (resume c (inst w) (pool w)) as [[[s tp] tr] [c'|]]; simpl.
  - rewrite replace_nth_last. reflexivity.
  - rewrite remove_nth_last. reflexivity.
Qed.

Lemma fine_resume_idle g l w :
  fine_step g (FResume (List.length l)) {| base := w; in_flight := l |}
  = {| base := w; in_flight := l |}.
Proof. unfold fine_step. simpl. rewrite nth_error_end. reflexivity. Qed.

Lemma world_eta w :
  {| inst := inst w; pool := pool w; effects := effects w |} = w.
Proof. destruct w; reflexivity. Qed.

Ltac norm_app :=
  rewrite ?app_nil_l, ?app_nil_r, ?app_assoc; reflexivity.

Lemma fine_begin_render g io w l :
  fine_step g (FRender io) {| base := w; in_flight := l |}
  = {| base := {| inst := inst w; pool := pool w;
                  effects := effects w ++ fst (begin_render io (inst w)) |};
       in_flight := enqueue (snd (begin_render io (inst w))) l |}.
Proof.
  unfold fine_step. simpl.
  destruct (begin_render io (inst w)) as [tr k]. reflexivity.
Qed.

(** A render whose sections run with nothing in between is the render of
    [step]. *)
Lemma fine_render_refines g io w l :
  fine_run g (FRender io :: repeat (FResume (List.length l)) 5)
    {| base := w; in_flight := l |}
  = {| base := step g (EvRender io) w; in_flight := l |}.
Proof.
  cbn [fine_run repeat step]. rewrite fine_begin_render.
  unfold begin_render, video_render.
  destruct (render_guard_skips io (inst w)) eqn:Hg; cbn [fst snd enqueue].
  - rewrite !fine_resume_idle. reflexivity.
  - rewrite fine_resume_last. cbn [resume inst pool effects fst snd enqueue].
    rewrite ?app_nil_r.
    destruct (_dirty (inst w)) eqn:Hd.
    + rewrite fine_resume_last.
      cbn [resume inst pool effects fst snd enqueue].
      destruct (render_block1 io
                  (obs_source_get_base_width (obs_filter_get_target io))
                  (obs_source_get_base_height (obs_filter_get_target io))
                  (inst w)) as [[s1 tr1] [c1|]] eqn:Hb1;
        cbn [inst pool effects fst snd enqueue].
      * rewrite !fine_resume_idle. norm_app.
      * rewrite fine_resume_last.
        cbn [resume inst pool effects fst snd enqueue].
        rewrite ?app_nil_r.
        destruct (_dirty s1) eqn:Hd1.
        -- rewrite fine_resume_last.
           cbn [resume inst pool effects fst snd enqueue].
           destruct (render_block2 io s1) as [[s2 tr2] [c2|]] eqn:Hb2;
             cbn [inst pool effects fst snd enqueue].
           ++ rewrite !fine_resume_idle. norm_app.
           ++ rewrite fine_resume_last.
              cbn [resume inst pool effects fst snd enqueue].
              destruct (render_draw s2) as [[s3 tr3] c3].
              cbn [inst pool effects fst snd enqueue].
              norm_app.
        -- rewrite fine_resume_last.
           cbn [resume inst pool effects fst snd enqueue].
           destruct (render_draw s1) as [[s3 tr3] c3].
           cbn [inst pool effects fst snd enqueue].
           rewrite !fine_resume_idle. norm_app.
    + rewrite fine_resume_last.
      cbn [resume inst pool effects fst snd enqueue]. rewrite ?app_nil_r.
      rewrite Hd.
      rewrite fine_resume_last.
      cbn [resume inst pool effects fst snd enqueue].
      destruct (render_draw (inst w)) as [[s3 tr3] c3].
      cbn [inst pool effects fst snd enqueue].
      rewrite !fine_resume_idle. norm_app.
Qed.

Lemma fine_begin_tick g io w l :
  fine_step g (FTick io) {| base := w; in_flight := l |}
  = {| base := {| inst := fst (begin_tick io (inst w)); pool := pool w;
                  effects := effects w |};
       in_flight := enqueue (snd (begin_tick io (inst w))) l |}.
Proof.
  unfold fine_step. simpl.
  destruct (begin_tick io (inst w)) as [s k]. reflexivity.
Qed.

Lemma fine_begin_update g d w l :
  fine_step g (FUpdate d) {| base := w; in_flight := l |}
  = {| base := {| inst := fst (begin_update g d (inst w)); pool := pool w;
                  effects := effects w |};
       in_flight := enqueue (snd (begin_update g d (inst w))) l |}.
Proof.
  unfold fine_step. simpl.
  destruct (begin_update g d (inst w)) as [s k]. reflexivity.
Qed.

(** A tick whose sections run with nothing in between is the tick of
    [step]. *)
Lemma fine_tick_refines g io w l :
  fine_run g (FTick io :: repeat (FResume (List.length l)) 2)
    {| base := w; in_flight := l |}
  = {| base := step g (EvTick io) w; in_flight := l |}.
Proof.
  cbn [fine_run repeat step]. rewrite fine_begin_tick.
  unfold begin_tick, video_tick. cbn [fst snd enqueue].
  destruct (obs_filter_get_target io) as [t|] eqn:Ht.
  - cbn [_provider_ready set_size].
    destruct (_provider_ready (inst w)) eqn:Hr.
    + rewrite fine_resume_last.
      cbn [resume inst pool effects fst snd enqueue _provider set_size].
      destruct (_provider (inst w)) eqn:Hp;
        try destruct ENABLE_FILTER_DENOISING_NVIDIA;
        try (destruct (nvvfx_denoising_size io _) as [s2 tr2]);
        cbn [inst pool effects fst snd enqueue];
        rewrite fine_resume_last;
        cbn [resume inst pool effects fst snd enqueue];
        norm_app.
    + rewrite fine_resume_last.
      cbn [resume inst pool effects fst snd enqueue].
      rewrite fine_resume_idle. norm_app.
  - rewrite fine_resume_last.
    cbn [resume inst pool effects fst snd enqueue].
    rewrite fine_resume_idle. norm_app.
Qed.

(** An update whose sections run with nothing in between is the update of
    [step]. *)
Lemma fine_update_refines g d w l :
  fine_run g (FUpdate d :: repeat (FResume (List.length l)) 3)
    {| base := w; in_flight := l |}
  = {| base := step g (EvUpdate d) w; in_flight := l |}.
Proof.
  destruct w as [s tp ef].
  cbn [fine_run repeat step]. rewrite fine_begin_update.
  cbn [inst pool effects].
  unfold begin_update, update.
  destruct (match data_provider d with
            | enumerator AUTOMATIC =>
                match get g with
                | Some f => Some (enumerator (find_ideal_provider f))
                | None => None
                end
            | enumerator INVALID => Some (enumerator INVALID)
            | enumerator NVIDIA_DENOISING => Some (enumerator NVIDIA_DENOISING)
            | no_enumerator z => Some (no_enumerator z)
            end) as [[p|z]|].
  - destruct (negb (provider_eqb p (_provider s))) eqn:Hn;
      cbn [fst snd enqueue].
    + rewrite fine_resume_last.
      cbn [resume inst pool effects fst snd enqueue].
      destruct (switch_provider p (set_provider_ui p s) tp)
        as [[s1 tp1] tr1].
      cbn [inst pool effects fst snd enqueue].
      rewrite fine_resume_last.
      cbn [resume inst pool effects fst snd enqueue].
      destruct (_provider_ready s1); cbn [enqueue].
      * rewrite fine_resume_last.
        cbn [resume inst pool effects fst snd enqueue].

        destruct (_provider s1);
          try destruct ENABLE_FILTER_DENOISING_NVIDIA;
          try (destruct (nvvfx_denoising_update d s1) as [s2 tr2]);
          cbn [inst pool effects fst snd enqueue]; norm_app.
      * rewrite fine_resume_idle. norm_app.
    + rewrite fine_resume_last.
      cbn [resume inst pool effects fst snd enqueue].
      destruct (_provider_ready s); cbn [enqueue].
      * rewrite fine_resume_last.
        cbn [resume inst pool effects fst snd enqueue].
        destruct (_provider s);
          try destruct ENABLE_FILTER_DENOISING_NVIDIA;
          try (destruct (nvvfx_denoising_update d s) as [s2 tr2]);
          cbn [inst pool effects fst snd enqueue];
          rewrite fine_resume_idle; norm_app.
      * rewrite !fine_resume_idle. norm_app.
  - cbn [fst snd enqueue cstring].
    rewrite fine_resume_last.
    cbn [resume inst pool effects fst snd enqueue].
    rewrite !fine_resume_idle. norm_app.
  - cbn [fst snd enqueue]. rewrite !fine_resume_idle.
    norm_app.
Qed.

Lemma forallb_replace_nth {A : Type} (P : A -> bool) n x (l : list A) :
  forallb P l = true -> P x = true -> forallb P (replace_nth n x l) = true.
Proof.
  revert n. induction l as [|y l IH]; intros [|n] Hl Hx; simpl in *; auto;
    apply andb_prop in Hl; destruct Hl as [Hy Hl].
  - rewrite Hx. exact Hl.
  - rewrite Hy. simpl. apply IH; assumption.
Qed.

Lemma forallb_remove_nth {A : Type} (P : A -> bool) n (l : list A) :
  forallb P l = true -> forallb P (remove_nth n l) = true.
Proof.
  revert n. induction l as [|y l IH]; intros [|n] Hl; simpl in *; auto;
    apply andb_prop in Hl; destruct Hl as [Hy Hl]; auto.
  rewrite Hy. simpl. apply IH; assumption.
Qed.

Lemma forallb_nth_error {A : Type} (P : A -> bool) n x (l : list A) :
  forallb P l = true -> nth_error l n = Some x -> P x = true.
Proof.
  intros Hl Hn. apply nth_error_In in Hn.
  rewrite forallb_forall in Hl. apply Hl. exact Hn.
Qed.

Lemma no_ready_section_enqueue k l :
  no_ready_section l = true ->
  match k with Some c => needs_ready c = false | None => True end ->
  no_ready_section (enqueue k l) = true.
Proof.
  unfold no_ready_section, enqueue. intros Hl Hk. destruct k as [c|]; auto.
  rewrite forallb_app, Hl. simpl. rewrite Hk. reflexivity.
Qed.

(** One section run while the flag is false and no call in flight has read
    it as true: the flag stays false, nothing reaches the backend, nothing
    is drawn, and the section that follows has not read the flag as true
    either. *)
Lemma resume_not_ready k s tp :
  needs_ready k = false ->
  _provider_ready s = false ->
  _provider_ready (fst (fst (fst (resume k s tp)))) = false
  /\ filter is_provider_call (snd (fst (resume k s tp))) = []
  /\ filter is_draw (snd (fst (resume k s tp))) = []
  /\ match snd (resume k s tp) with
     | Some c => needs_ready c = false
     | None => True
     end.
Proof.
  intros Hk Hr. destruct k as [v d|d|d|io| |io|io|io|io| ]; try discriminate Hk.
  - destruct v as [p|z]; simpl; [|auto].
    unfold switch_provider.
    destruct (provider_eqb p (_provider s)); simpl; auto.
  - simpl. rewrite Hr. auto.
  - simpl. auto.
Qed.

Lemma fine_step_not_ready g e fw :
  is_fine_task_body e = false ->
  _provider_ready (inst (base fw)) = false ->
  no_ready_section (in_flight fw) = true ->
  _provider_ready (inst (base (fine_step g e fw))) = false
  /\ no_ready_section (in_flight (fine_step g e fw)) = true
  /\ exists tr,
      effects (base (fine_step g e fw)) = effects (base fw) ++ tr
      /\ filter is_provider_call tr = []
      /\ filter is_draw tr = [].
Proof.
  intros He Hr Hl. destruct fw as [w l]. simpl in Hr, Hl.
  destruct e as [d|io|io|n|e].
  - rewrite fine_begin_update. simpl.
    assert (K : _provider_ready (fst (begin_update g d (inst w))) = false
                /\ match snd (begin_update g d (inst w)) with
                   | Some c => needs_ready c = false
                   | None => True
                   end).
    { unfold begin_update.
      destruct (data_provider d) as [[| |]|z]; try destruct g as [f|];
        simpl; auto;
        match goal with
        | |- context [negb ?b] => destruct b; simpl; auto
        end. }
    destruct K as [K1 K2].
    split; [exact K1|]. split; [apply no_ready_section_enqueue; assumption|].
    exists []. rewrite app_nil_r. auto.
  - rewrite fine_begin_tick. unfold begin_tick. cbn [fst snd inst base].
    split; [exact Hr|]. split.
    + apply no_ready_section_enqueue; [assumption|].
      cbn [_provider_ready set_size]. rewrite Hr.
      destruct (obs_filter_get_target io); reflexivity.
    + exists []. rewrite app_nil_r. auto.
  - rewrite fine_begin_render. unfold begin_render, render_guard_skips.
    rewrite Hr. simpl.
    split; [exact Hr|]. split; [exact Hl|].
    exists [obs_source_skip_video_filter]. auto.
  - unfold fine_step. simpl.
    destruct (nth_error l n) as [c|] eqn:Hn; simpl.
    + assert (Hc : needs_ready c = false).
      { apply negb_true_iff.
        exact (forallb_nth_error _ _ _ _ Hl Hn). }
      destruct (resume_not_ready c (inst w) (pool w) Hc Hr)
        as (K1 & K2 & K3 & K4).
      destruct (resume c (inst w) (pool w)) as [[[s tp] tr] next].
      simpl in *. split; [exact K1|]. split.
      * destruct next as [c'|].
        -- apply forallb_replace_nth; [exact Hl|]. rewrite K4. reflexivity.
        -- apply forallb_remove_nth. exact Hl.
      * exists tr. auto.
    + split; [exact Hr|]. split; [exact Hl|].
      exists []. rewrite app_nil_r. auto.
  - simpl.
    assert (He' : is_task_body e = false) by (destruct e; auto).
    destruct (step_not_ready g e w He' Hr) as (K1 & K2).
    split; [exact K1|]. split; [exact Hl|]. exact K2.
Qed.

(** X19: as long as [_provider_ready] is false and no call in flight has
    already read it as true, no section of an update, tick or render, no
    switch request and no task start sets it, and none of them calls the
    backend or draws, however the sections of the calls and the steps of
    the tasks are interleaved: the flag is raised by a task body and by
    nothing else. *)
Theorem not_ready_means_no_backend_call g fw evs
  (Hready : _provider_ready (inst (base fw)) = false)
  (Hflight : no_ready_section (in_flight fw) = true)
  (Hevs : forallb (fun e => negb (is_fine_task_body e)) evs = true) :
  _provider_ready (inst (base (fine_run g evs fw))) = false
  /\ no_ready_section (in_flight (fine_run g evs fw)) = true
  /\ exists tr,
      effects (base (fine_run g evs fw)) = effects (base fw) ++ tr
      /\ filter is_provider_call tr = []
      /\ filter is_draw tr = [].
Proof.
  revert fw Hready Hflight.
  induction evs as [|e evs IH]; intros fw Hr Hl; simpl in *.
  - split; [exact Hr|]. split; [exact Hl|].
    exists []. rewrite app_nil_r. auto.
  - apply andb_prop in Hevs. destruct Hevs as [He Hevs].
    apply negb_true_iff in He.
    destruct (fine_step_not_ready g e fw He Hr Hl)
      as (Hr1 & Hl1 & tr1 & E1 & P1 & D1).
    destruct (IH Hevs _ Hr1 Hl1) as (Hr2 & Hl2 & tr2 & E2 & P2 & D2).
    split; [exact Hr2|]. split; [exact Hl2|].
    exists (tr1 ++ tr2).
    rewrite E2, E1, app_assoc, !filter_app, P1, P2, D1, D2. auto.
Qed.

(** *** The guard of video_render among concurrent switches *)

(** The sections of a render past its guard do not read [_provider_ready]:
    with the flag set either way they do the same and leave the flag as
    they found it. *)
Lemma render_section_ignores_ready k b s tp :
  is_render_section k = true ->
  resume k (set_provider_ready b s) tp
  = (set_provider_ready b (fst (fst (fst (resume k s tp)))),
     snd (fst (fst (resume k s tp))),
     snd (fst (resume k s tp)),
     snd (resume k s tp)).
Proof.
  intros Hk.
  destruct k as [v d|d|d|io| |io|io|io|io| ]; try discriminate Hk;
    destruct s as [sz rdy p ui tk [inp] out dd fx];
    try destruct io as [par tgt fsz b1 p1 b2 p2];
    unfold resume, render_block1, render_block2, render_draw,
      provider_process, nvvfx_denoising_process, nvvfx_denoising_size;
    simpl.
  - destruct dd; reflexivity.
  - destruct p; try destruct ENABLE_FILTER_DENOISING_NVIDIA;
      try destruct fx as [fx|]; simpl;
      destruct b1; simpl; try reflexivity;
      try destruct p1 as [[t1|]|e1]; simpl; try reflexivity;
      destruct inp; reflexivity.
  - destruct dd; reflexivity.
  - destruct p; try destruct ENABLE_FILTER_DENOISING_NVIDIA;
      try destruct fx as [fx|]; simpl;
      destruct b2; simpl; try reflexivity;
      try destruct p2 as [[t2|]|e2]; simpl; try reflexivity;
      destruct inp; reflexivity.
  - destruct out; reflexivity.
Qed.

(** C4 (amended): when [_provider_ready] is false as the guard of
    [video_render] reads it, or there is no target, or the upstream width or
    height is zero, the call leaves the instance untouched, emits exactly
    one skip and returns, with no provider call; among interleaved calls it
    ends at the guard, with no section left to run.  The guard is the only
    read of the flag: the sections of a render that got past it do the same
    whatever the flag has become since. *)
Theorem video_render_reads_ready_once g io fw
  (Hguard : _provider_ready (inst (base fw)) = false
            \/ obs_filter_get_target io = None
            \/ obs_source_get_base_width (obs_filter_get_target io) = 0%N
            \/ obs_source_get_base_height (obs_filter_get_target io) = 0%N) :
  video_render io (inst (base fw))
  = (inst (base fw), [obs_source_skip_video_filter], Normal)
  /\ filter is_provider_call (trace_of (video_render io (inst (base fw)))) = []
  /\ fine_step g (FRender io) fw
     = {| base := {| inst := inst (base fw); pool := pool (base fw);
                     effects := effects (base fw)
                                ++ [obs_source_skip_video_filter] |};
          in_flight := in_flight fw |}
  /\ forall k b s tp,
      is_render_section k = true ->
      resume k (set_provider_ready b s) tp
      = (set_provider_ready b (fst (fst (fst (resume k s tp)))),
         snd (fst (fst (resume k s tp))),
         snd (fst (resume k s tp)),
         snd (resume k s tp)).
Proof.
  assert (G : render_guard_skips io (inst (base fw)) = true).
  { unfold render_guard_skips.
    destruct Hguard as [H | [H | [H | H]]]; rewrite H; simpl;
      rewrite ?orb_true_r; reflexivity. }
  assert (E : video_render io (inst (base fw))
              = (inst (base fw), [obs_source_skip_video_filter], Normal)).
  { unfold video_render. rewrite G. reflexivity. }
  split; [exact E|]. split; [rewrite E; reflexivity|]. split.
  - destruct fw as [w l]. rewrite fine_begin_render.
    unfold begin_render. simpl in *. rewrite G. reflexivity.
  - intros k b s tp Hk. apply render_section_ignores_ready. exact Hk.
Qed.

End Build.

(** ** The properties at concrete inputs *)

(** *** Witnesses *)

Lemma video_render_reads_ready_once_witness :
  (_provider_ready (inst fresh_world) = false
   \/ obs_filter_get_target frame_ok = None
   \/ obs_source_get_base_width (obs_filter_get_target frame_ok) = 0%N
   \/ obs_source_get_base_height (obs_filter_get_target frame_ok) = 0%N)
  /\ video_render true frame_ok fresh_instance
     = (fresh_instance, [obs_source_skip_video_filter], Normal)
  /\ fine_step true (Some factory_with_nvidia) (FRender frame_ok)
       {| base := fresh_world; in_flight := [] |}
     = {| base := {| inst := fresh_instance; pool := threadpool_init;
                     effects := [obs_source_skip_video_filter] |};
          in_flight := [] |}.
Proof.
  split; [left; reflexivity|].
  destruct (video_render_reads_ready_once true (Some factory_with_nvidia)
              frame_ok {| base := fresh_world; in_flight := [] |}
              (or_introl eq_refl)) as (H1 & _ & H3 & _).
  split; [exact H1 | exact H3].
Defined.

Lemma dirty_flag_protocol_witness :
  _dirty (fst (video_tick true frame_ok fresh_instance)) = true
  /\ _dirty
       (inst (step true (Some factory_with_nvidia) (EvUpdate request_nvidia)
                fresh_world)) = true
  /\ (render_guard_skips frame_ok ready_nvidia_instance = false
      /\ begin1 frame_ok = true /\ begin2 frame_ok = true
      /\ completion_of (video_render true frame_ok ready_nvidia_instance)
         = Normal
      /\ filter is_skip
           (trace_of (video_render true frame_ok ready_nvidia_instance)) = []
      /\ exists t,
          process_yields true (process2 frame_ok) ready_nvidia_instance
          = Some (Some t)
          /\ _output
               (state_of (video_render true frame_ok ready_nvidia_instance))
             = Some t
          /\ In (gs_draw_sprite t
                   (fst (_size (state_of
                      (video_render true frame_ok ready_nvidia_instance))))
                   (snd (_size (state_of
                      (video_render true frame_ok ready_nvidia_instance)))))
                (trace_of (video_render true frame_ok ready_nvidia_instance)))
  /\ (_dirty
        (state_of (video_render true frame_no_output ready_nvidia_instance))
      = true
      /\ _output
           (state_of (video_render true frame_no_output ready_nvidia_instance))
         = None
      /\ completion_of
           (video_render true frame_no_output ready_nvidia_instance) = Normal
      /\ last (trace_of
                 (video_render true frame_no_output ready_nvidia_instance))
              nvidia_fx_process
         = obs_source_skip_video_filter
      /\ filter is_draw
           (trace_of (video_render true frame_no_output ready_nvidia_instance))
         = []
      /\ In (D_LOG_ERROR (msg_no_result (_provider ready_nvidia_instance)))
            (trace_of
               (video_render true frame_no_output ready_nvidia_instance))).
Proof.
  destruct (dirty_flag_protocol true) as [Htick [Hother [Hclear Hkeep]]].
  split; [apply Htick|].
  split; [apply Hother; reflexivity|].
  split.
  - apply Hclear; reflexivity.
  - apply Hkeep; try reflexivity. left; reflexivity.
Defined.

Lemma task_switch_provider_non_std_exception_escapes_witness :
  completion_of
    (task_switch_provider_try true {| provider := INVALID |}
       switch_load_throws_non_std
       (task_switch_provider_mark selected_nvidia_instance))
  = Escaped non_std_exception
  /\ (completion_of
        (task_switch_provider true {| provider := INVALID |}
           switch_load_throws_non_std selected_nvidia_instance)
      = Escaped non_std_exception
      /\ filter is_error_line
           (trace_of
              (task_switch_provider true {| provider := INVALID |}
                 switch_load_throws_non_std selected_nvidia_instance)) = []
      /\ _provider_ready
           (state_of
              (task_switch_provider true {| provider := INVALID |}
                 switch_load_throws_non_std selected_nvidia_instance)) = false
      /\ _provider
           (state_of
              (task_switch_provider true {| provider := INVALID |}
                 switch_load_throws_non_std selected_nvidia_instance))
         = _provider selected_nvidia_instance).
Proof.
  split; [reflexivity|].
  apply (task_switch_provider_non_std_exception_escapes true
           {| provider := INVALID |} switch_load_throws_non_std
           selected_nvidia_instance).
  reflexivity.
Defined.

Lemma nvvfx_denoising_process_absent_backend_witness :
  _nvidia_fx fresh_instance = None
  /\ nvvfx_denoising_process (Returns None) fresh_instance
     = (set_output (get_texture (_input fresh_instance)) fresh_instance,
        [], Normal).
Proof.
  split; [reflexivity|].
  apply (nvvfx_denoising_process_absent_backend (Returns None) fresh_instance).
  reflexivity.
Defined.

Lemma switch_task_loads_current_provider_witness :
  (NVIDIA_DENOISING <> _provider fresh_instance
   /\ destroy_denoising switch_ok = Returns tt
   /\ make_shared_denoising switch_ok = Returns {| strength := 1 |})
  /\ (_provider
        (fst (fst (switch_provider NVIDIA_DENOISING fresh_instance
                     threadpool_init)))
      = NVIDIA_DENOISING
      /\ exists h q,
          _provider_task
            (fst (fst (switch_provider NVIDIA_DENOISING fresh_instance
                         threadpool_init))) = Some h
          /\ queue
               (snd (fst (switch_provider NVIDIA_DENOISING fresh_instance
                            threadpool_init)))
             = q ++ [{| handle := h;
                        data := {| provider := _provider fresh_instance |} |}])
  /\ _provider_ready
       (state_of
          (task_switch_provider_locked true {| provider := NVIDIA_DENOISING |}
             switch_ok fresh_instance)) = true.
Proof.
  destruct (switch_task_loads_current_provider true) as [Hsubmit Hrun].
  split; [repeat split; discriminate|].
  split.
  - apply Hsubmit. discriminate.
  - apply (Hrun {| provider := NVIDIA_DENOISING |} switch_ok fresh_instance
             {| strength := 1 |}); reflexivity.
Defined.

Lemma last_switch_provider_wins_witness :
  forallb (fun e => negb (calls_switch_provider e))
    [EvTaskBody 0 switch_ok; EvTaskStart 0; EvTaskBody 0 switch_ok] = true
  /\ _provider
       (inst
          (run true None
             ([EvSwitchProvider NVIDIA_DENOISING; EvTaskStart 0]
                ++ EvSwitchProvider INVALID
                :: [EvTaskBody 0 switch_ok; EvTaskStart 0;
                    EvTaskBody 0 switch_ok])
             fresh_world))
     = INVALID.
Proof.
  split; [reflexivity|].
  apply (proj1 (last_switch_provider_wins true None fresh_world
                  [EvSwitchProvider NVIDIA_DENOISING; EvTaskStart 0] INVALID)).
  reflexivity.
Defined.

Lemma active_provider_never_automatic_witness :
  (fst (denoising_factory_ctor true init_ok) = Returns factory_with_nvidia
   /\ registered factory_with_nvidia = true
   /\ forallb is_host_event
        [EvTaskStart 0; EvTaskBody 0 switch_ok; EvTick frame_ok;
         EvRender frame_ok; EvUpdate request_invalid;
         EvUpdate request_automatic] = true)
  /\ _provider
       (inst
          (run true (Some factory_with_nvidia)
             [EvTaskStart 0; EvTaskBody 0 switch_ok; EvTick frame_ok;
              EvRender frame_ok; EvUpdate request_invalid;
              EvUpdate request_automatic]
             (denoising_instance_ctor true (Some factory_with_nvidia)
                sample_target INVALID true (Some request_automatic))))
     <> AUTOMATIC.
Proof.
  split; [repeat split; reflexivity|].
  apply (proj1 (active_provider_never_automatic true init_ok
                  factory_with_nvidia sample_target INVALID true
                  (Some request_automatic)
                  [EvTaskStart 0; EvTaskBody 0 switch_ok; EvTick frame_ok;
                   EvRender frame_ok; EvUpdate request_invalid;
                   EvUpdate request_automatic] eq_refl eq_refl eq_refl)).
Defined.


(** *** Counterexamples *)

(** C1, as stated, fails.  [switch_provider NVIDIA_DENOISING] submits a task
    whose data is [INVALID], the identity being vacated; a worker starts it;
    [switch_provider INVALID] follows before the task gets the lock.  When
    the task then runs, [_provider] is [INVALID], not the identity of its own
    submission: it loads no NVIDIA backend and still sets [_provider_ready]. *)
Lemma stale_switch_task_sets_ready :
  let w1 := step true None (EvSwitchProvider NVIDIA_DENOISING) fresh_world in
  let w2 := step true None (EvTaskStart 0) w1 in
  let w3 := step true None (EvSwitchProvider INVALID) w2 in
  let w4 := step true None (EvTaskBody 0 switch_ok) w3 in
  queue (pool w1) = [{| handle := 0; data := {| provider := INVALID |} |}]
  /\ started (pool w3) = [{| handle := 0; data := {| provider := INVALID |} |}]
  /\ _provider (inst w3) = INVALID
  /\ _provider (inst w4) = INVALID
  /\ _nvidia_fx (inst w4) = None
  /\ _provider_ready (inst w4) = true.
Proof. repeat split; reflexivity. Qed.

(** C4, as stated, fails.  An instance on NVIDIA is ready and has a dirty
    frame when two updates, away from NVIDIA and back, leave a switch task
    in the queue.  A render passes its guard; the task starts and clears
    [_provider_ready]; the render goes on through its first block, where
    the backend's [process] is called while the flag is false. *)
Lemma render_processes_while_not_ready :
  let g := Some factory_with_nvidia in
  let fw :=
    fine_run true g
      [FAtomic (EvTaskStart 0); FAtomic (EvTaskBody 0 switch_ok);
       FAtomic (EvTick frame_ok);
       FAtomic (EvUpdate request_invalid); FAtomic (EvUpdate request_nvidia);
       FRender frame_ok;
       FAtomic (EvTaskStart 0);
       FResume 0]
      {| base := denoising_instance_ctor true g sample_target AUTOMATIC true
                   (Some request_nvidia);
         in_flight := [] |} in
  _provider_ready (inst (base fw)) = false
  /\ in_flight fw = [k_render_block1 frame_ok]
  /\ effects (base (fine_step true g (FResume 0) fw))
     = effects (base fw)
       ++ [nvidia_fx_size (1920%N, 1080%N);
           obs_source_process_filter_begin true;
           input_render 1920 1080;
           obs_source_process_filter_end 1920 1080;
           nvidia_fx_process]
  /\ _provider_ready (inst (base (fine_step true g (FResume 0) fw))) = false.
Proof. vm_compute. repeat split; reflexivity. Qed.


(** C8, as stated, fails.  With no backend object, the process shim hands
    back the input target's texture: the output is not null. *)
Lemma nvvfx_denoising_process_absent_backend_returns_input :
  _nvidia_fx fresh_instance = None
  /\ _output (state_of (nvvfx_denoising_process (Returns None) fresh_instance))
     = Some 1%nat
  /\ ~ (forall r s, _nvidia_fx s = None ->
          _output (state_of (nvvfx_denoising_process r s)) = None).
Proof.
  repeat split.
  intros H. specialize (H (Returns None) fresh_instance eq_refl).
  discriminate H.
Qed.

(** *** Witnesses of the further properties *)

Lemma back_to_back_switch_supersedes_witness :
  (NVIDIA_DENOISING
   <> _provider
        (inst (run true None []
                 (denoising_instance_ctor true None sample_target INVALID
                    true None)))
   /\ AUTOMATIC <> NVIDIA_DENOISING)
  /\ queue
       (pool (run true None
                [EvSwitchProvider NVIDIA_DENOISING; EvSwitchProvider AUTOMATIC]
                (run true None []
                   (denoising_instance_ctor true None sample_target INVALID
                      true None))))
     = [{| handle := 1; data := {| provider := NVIDIA_DENOISING |} |}].
Proof.
  split; [split; discriminate|].
  apply (back_to_back_switch_supersedes true None sample_target INVALID true
           None [] NVIDIA_DENOISING AUTOMATIC); discriminate.
Defined.

Lemma update_leaves_frame_and_waits_for_ready_witness :
  _provider_ready fresh_instance = false
  /\ filter is_provider_call
       (snd (fst (update true (Some factory_with_nvidia) request_nvidia
                    fresh_instance threadpool_init))) = []
  /\ _nvidia_fx
       (fst (fst (fst (update true (Some factory_with_nvidia) request_nvidia
                         fresh_instance threadpool_init))))
     = _nvidia_fx fresh_instance.
Proof.
  split; [reflexivity|].
  apply (proj2 (update_leaves_frame_and_waits_for_ready true
                  (Some factory_with_nvidia) request_nvidia fresh_instance
                  threadpool_init)).
  reflexivity.
Defined.

Lemma update_strength_is_weak_or_strong_witness :
  In (nvidia_fx_set_strength 1)
     (snd (fst (update true None request_nvidia ready_nvidia_instance
                  threadpool_init)))
  /\ ((1 = 0 \/ 1 = 1)%Z
      /\ (1%Z = 0%Z <-> data_nvidia_denoising_strength request_nvidia = 0%Z)
      /\ _provider_ready ready_nvidia_instance = true
      /\ _nvidia_fx
           (fst (fst (fst (update true None request_nvidia
                             ready_nvidia_instance threadpool_init))))
         = Some {| strength := 1 |}).
Proof.
  assert (H : In (nvidia_fx_set_strength 1)
                (snd (fst (update true None request_nvidia
                             ready_nvidia_instance threadpool_init)))).
  { left; reflexivity. }
  split; [exact H|].
  apply (update_strength_is_weak_or_strong true None request_nvidia
           ready_nvidia_instance threadpool_init 1%Z H).
Defined.

Lemma get_properties2_contents_witness :
  (true = true
   /\ exists s, Some (set_provider_ui NVIDIA_DENOISING fresh_instance) = Some s
                /\ _provider_ui s = NVIDIA_DENOISING)
  /\ In nvidia_denoising_group
       (get_properties2 true true
          (Some (set_provider_ui NVIDIA_DENOISING fresh_instance))).
Proof.
  assert (H : true = true
              /\ exists s,
                  Some (set_provider_ui NVIDIA_DENOISING fresh_instance)
                  = Some s
                  /\ _provider_ui s = NVIDIA_DENOISING).
  { split; [reflexivity|]. eexists. split; reflexivity. }
  split; [exact H|].
  apply (proj2 (proj2 (get_properties2_contents true true
                         (Some (set_provider_ui NVIDIA_DENOISING
                                  fresh_instance))))).
  exact H.
Defined.

Lemma properties_follow_active_provider_witness :
  (forallb is_host_event [EvTaskStart 0; EvTaskBody 0 switch_ok] = true
   /\ (forall d', Some (get_defaults2 true) = Some d'
                  -> is_enumerator (data_provider d') = true)
   /\ forallb requests_enumerator [EvTaskStart 0; EvTaskBody 0 switch_ok]
      = true)
  /\ ui_follows_active
       (inst (run true (Some factory_with_nvidia)
                [EvTaskStart 0; EvTaskBody 0 switch_ok]
                (denoising_instance_ctor true (Some factory_with_nvidia)
                   sample_target INVALID true (Some (get_defaults2 true)))))
  /\ In nvidia_denoising_group
       (get_properties2 true true
          (Some (inst (run true (Some factory_with_nvidia)
                         [EvTaskStart 0; EvTaskBody 0 switch_ok]
                         (denoising_instance_ctor true
                            (Some factory_with_nvidia) sample_target INVALID
                            true (Some (get_defaults2 true))))))).
Proof.
  assert (Hd : forall d', Some (get_defaults2 true) = Some d'
                          -> is_enumerator (data_provider d') = true).
  { intros d' E. inversion E; subst. reflexivity. }
  split; [split; [reflexivity | split; [exact Hd | reflexivity]]|].
  destruct (properties_follow_active_provider true true
              (Some factory_with_nvidia) sample_target INVALID true
              (Some (get_defaults2 true))
              [EvTaskStart 0; EvTaskBody 0 switch_ok]
              eq_refl Hd eq_refl) as (H1 & H2 & _).
  split; [exact H1|]. apply H2; reflexivity.
Defined.

Lemma denoising_factory_ctor_outcome_witness :
  fst (denoising_factory_ctor true init_nvidia_missing)
  = Returns factory_without_providers
  /\ registered factory_without_providers
     = _nvidia_available factory_without_providers
  /\ filter is_error_line (snd (denoising_factory_ctor true init_nvidia_missing))
     = [D_LOG_ERROR msg_all_providers_failed].
Proof.
  split; [reflexivity|].
  pose proof (denoising_factory_ctor_outcome true init_nvidia_missing) as H.
  simpl in H. destruct H as (H1 & _ & H3).
  split; [exact H1 | exact H3].
Defined.

Lemma initialize_fails_iff_witness :
  get (fst (initialize true init_nvidia_missing None)) <> None
  /\ ~ (exists w, In (D_LOG_ERROR (msg_failed_initialize w))
                    (snd (initialize true init_nvidia_missing None))).
Proof.
  assert (H : get (fst (initialize true init_nvidia_missing None)) <> None).
  { discriminate. }
  split; [exact H|].
  intros Hlog. apply H.
  apply (proj1 (proj2 (initialize_fails_iff true init_nvidia_missing))).
  exact Hlog.
Defined.


Lemma construction_switches_to_nvidia_witness :
  (true = true
   /\ _nvidia_available factory_with_nvidia = true
   /\ (data_provider (get_defaults2 true) = AUTOMATIC
       \/ data_provider (get_defaults2 true) = NVIDIA_DENOISING))
  /\ _provider_ready
       (inst (run true (Some factory_with_nvidia)
                [EvTaskStart 0;
                 EvTaskBody 0
                   {| make_shared_denoising := Returns {| strength := 1 |};
                      destroy_denoising := Returns tt |}]
                (denoising_instance_ctor true (Some factory_with_nvidia)
                   sample_target INVALID true (Some (get_defaults2 true))))) = true.
Proof.
  split; [repeat split; left; reflexivity|].
  apply (construction_switches_to_nvidia true factory_with_nvidia
           sample_target INVALID true (get_defaults2 true) {| strength := 1 |}
           (Returns tt) eq_refl eq_refl (or_introl eq_refl)).
Defined.

Lemma video_render_process_throws_witness :
  (render_guard_skips frame_first_process_throws ready_nvidia_instance = false
   /\ render_guard_skips frame_second_process_throws ready_nvidia_instance
      = false
   /\ _dirty ready_nvidia_instance = true
   /\ _provider ready_nvidia_instance = NVIDIA_DENOISING
   /\ _nvidia_fx ready_nvidia_instance <> None
   /\ begin1 frame_first_process_throws = true
   /\ begin1 frame_second_process_throws = true)
  /\ completion_of
       (video_render true frame_first_process_throws ready_nvidia_instance)
     = Escaped non_std_exception
  /\ completion_of
       (video_render true frame_second_process_throws ready_nvidia_instance)
     = Normal
  /\ filter is_skip
       (trace_of
          (video_render true frame_second_process_throws
             ready_nvidia_instance))
     = [obs_source_skip_video_filter].
Proof.
  assert (Hfx : _nvidia_fx ready_nvidia_instance <> None) by discriminate.
  split; [repeat split; try reflexivity; exact Hfx|].
  destruct (video_render_process_throws true frame_first_process_throws
              ready_nvidia_instance non_std_exception
              eq_refl eq_refl eq_refl eq_refl Hfx eq_refl) as [H1 _].
  destruct (video_render_process_throws true frame_second_process_throws
              ready_nvidia_instance non_std_exception
              eq_refl eq_refl eq_refl eq_refl Hfx eq_refl) as [_ H2].
  destruct (H1 eq_refl) as (E1 & _).
  destruct (H2 2%nat eq_refl eq_refl eq_refl) as (E2 & S2 & _).
  split; [exact E1|]. split; [exact E2 | exact S2].
Defined.

Lemma video_render_reuses_output_witness :
  (_dirty ready_nvidia_instance = true
   /\ _dirty (state_of (video_render true frame_ok ready_nvidia_instance))
      = false
   /\ render_guard_skips frame_ok
        (state_of (video_render true frame_ok ready_nvidia_instance)) = false)
  /\ exists t,
      _output (state_of (video_render true frame_ok ready_nvidia_instance))
      = Some t
      /\ video_render true frame_ok
           (state_of (video_render true frame_ok ready_nvidia_instance))
         = (state_of (video_render true frame_ok ready_nvidia_instance),
            [gs_draw_sprite t
               (fst (_size (state_of (video_render true frame_ok
                                        ready_nvidia_instance))))
               (snd (_size (state_of (video_render true frame_ok
                                        ready_nvidia_instance))))],
            Normal).
Proof.
  split; [repeat split; reflexivity|].
  apply (video_render_reuses_output true frame_ok frame_ok
           ready_nvidia_instance); reflexivity.
Defined.

Lemma video_render_without_backend_draws_input_witness :
  (true = true
   /\ _provider ready_unloaded_nvidia_instance = NVIDIA_DENOISING
   /\ _nvidia_fx ready_unloaded_nvidia_instance = None
   /\ get_texture (_input ready_unloaded_nvidia_instance) = Some 1%nat
   /\ render_guard_skips frame_ok ready_unloaded_nvidia_instance = false
   /\ _dirty ready_unloaded_nvidia_instance = true
   /\ begin1 frame_ok = true
   /\ begin2 frame_ok = true)
  /\ last (trace_of (video_render true frame_ok
                       ready_unloaded_nvidia_instance))
          obs_source_skip_video_filter
     = gs_draw_sprite 1%nat 1 1.
Proof.
  split; [repeat split; reflexivity|].
  rewrite (video_render_without_backend_draws_input true frame_ok
             ready_unloaded_nvidia_instance 1%nat eq_refl eq_refl eq_refl
             eq_refl eq_refl eq_refl eq_refl eq_refl).
  reflexivity.
Defined.

Lemma video_tick_size_witness :
  obs_filter_get_target
    {| obs_filter_get_parent := Some hd_source;
       obs_filter_get_target := None;
       fx_size := fun sz => sz;
       begin1 := true; process1 := Returns None;
       begin2 := true; process2 := Returns None |} = None
  /\ get_width
       (fst (video_tick true
               {| obs_filter_get_parent := Some hd_source;
                  obs_filter_get_target := None;
                  fx_size := fun sz => sz;
                  begin1 := true; process1 := Returns None;
                  begin2 := true; process2 := Returns None |}
               ready_nvidia_instance)) = 1%N.
Proof.
  split; [reflexivity|].
  apply (proj2 (proj2 (proj2 (video_tick_size true
           {| obs_filter_get_parent := Some hd_source;
              obs_filter_get_target := None;
              fx_size := fun sz => sz;
              begin1 := true; process1 := Returns None;
              begin2 := true; process2 := Returns None |}
           ready_nvidia_instance)))).
  reflexivity.
Defined.

Lemma tick_then_render_restricts_size_twice_witness :
  (true = true
   /\ _provider ready_nvidia_instance = NVIDIA_DENOISING
   /\ _provider_ready ready_nvidia_instance = true
   /\ _nvidia_fx ready_nvidia_instance = Some {| strength := 1 |}
   /\ obs_filter_get_target frame_padding = Some hd_source
   /\ base_width hd_source <> 0%N
   /\ base_height hd_source <> 0%N
   /\ begin1 frame_padding = true
   /\ process1 frame_padding = Returns (Some 2%nat)
   /\ begin2 frame_padding = true
   /\ process2 frame_padding = Returns (Some 3%nat))
  /\ _size (state_of (video_render true frame_padding
                        (fst (video_tick true frame_padding
                                ready_nvidia_instance))))
     = (1920%N, 1096%N).
Proof.
  split; [repeat split; try reflexivity; discriminate|].
  apply (tick_then_render_restricts_size_twice true frame_padding
           ready_nvidia_instance {| strength := 1 |} hd_source 2%nat 3%nat);
    try reflexivity; discriminate.
Defined.

Lemma not_ready_means_no_backend_call_witness :
  (_provider_ready (inst fresh_world) = false
   /\ no_ready_section [k_tick_dirty] = true
   /\ forallb (fun e => negb (is_fine_task_body e))
        [FUpdate request_nvidia; FRender frame_ok; FResume 1;
         FAtomic (EvTaskStart 0); FTick frame_ok; FResume 0; FResume 0;
         FAtomic (EvRender frame_ok)] = true)
  /\ _provider_ready
       (inst (base
          (fine_run true (Some factory_with_nvidia)
             [FUpdate request_nvidia; FRender frame_ok; FResume 1;
              FAtomic (EvTaskStart 0); FTick frame_ok; FResume 0; FResume 0;
              FAtomic (EvRender frame_ok)]
             {| base := fresh_world; in_flight := [k_tick_dirty] |})))
     = false.
Proof.
  split; [repeat split; reflexivity|].
  apply (proj1 (not_ready_means_no_backend_call true
                  (Some factory_with_nvidia)
                  {| base := fresh_world; in_flight := [k_tick_dirty] |}
                  [FUpdate request_nvidia; FRender frame_ok; FResume 1;
                   FAtomic (EvTaskStart 0); FTick frame_ok; FResume 0;
                   FResume 0; FAtomic (EvRender frame_ok)]
                  eq_refl eq_refl eq_refl)).
Defined.

Lemma task_contains_std_exception_witness :
  completion_of
    (task_switch_provider_try true {| provider := INVALID |}
       switch_load_throws_std
       (task_switch_provider_mark selected_nvidia_instance))
  = Escaped (std_exception "out of memory")
  /\ completion_of
       (task_switch_provider true {| provider := INVALID |}
          switch_load_throws_std selected_nvidia_instance) = Normal
  /\ filter is_log
       (trace_of (task_switch_provider true {| provider := INVALID |}
                    switch_load_throws_std selected_nvidia_instance))
     = [D_LOG_ERROR (msg_failed_switching "out of memory")].
Proof.
  split; [reflexivity|].
  destruct (task_contains_std_exception true {| provider := INVALID |}
              switch_load_throws_std selected_nvidia_instance
              "out of memory" eq_refl) as (H1 & H2 & _).
  split; [exact H1 | exact H2].
Defined.
